(** * Session and subscription manager of the market-data terminal

    A shallow embedding of [src/app/page.tsx]: the WebSocket handlers
    ([onopen], [onmessage], [onerror], [onclose]), the commands
    ([connectWebSocket], [disconnectWebSocket], [sendLogin], [sendLogout],
    [subscribeToken], [unsubscribeToken]), the persistence effects, and the
    buttons that gate the commands.  Every handler runs to completion; the
    state updates it queues are applied when it returns, and the effects whose
    dependencies changed run right after. *)

From Stdlib Require Import PrimFloat Ascii String.
From stdpp Require Import gmap strings list fin_maps.

Set Warnings "-register-all,-inexact-float".
Set Default Proof Using "Type".

Local Open Scope string_scope.

(** ** Enumerations of the source *)

Inductive WSStatus := connected | disconnected | error.
Inductive MessageType := msg_sent | msg_received | msg_error | msg_success | msg_info.
Inductive StreamingType := ltpinfo | marketPicture | login | logout.
Inductive RequestType := subscribe | unsubscribe.
(** [WebSocket.readyState] *)
Inductive ReadyState := CONNECTING | OPEN | CLOSING | CLOSED.

#[global] Instance WSStatus_eq_dec : EqDecision WSStatus.
Proof. solve_decision. Defined.
#[global] Instance StreamingType_eq_dec : EqDecision StreamingType.
Proof. solve_decision. Defined.
#[global] Instance RequestType_eq_dec : EqDecision RequestType.
Proof. solve_decision. Defined.
#[global] Instance ReadyState_eq_dec : EqDecision ReadyState.
Proof. solve_decision. Defined.

(** The text a streaming type has inside a template string or on the wire. *)
Definition StreamingType_text (t : StreamingType) : string :=
  match t with
  | ltpinfo => "ltpinfo"
  | marketPicture => "marketPicture"
  | login => "login"
  | logout => "logout"
  end.

(** [STORAGE_KEYS] *)
Module STORAGE_KEYS.
Definition subscriptions : string := "stockBroker_subscriptions".
Definition credentials : string := "stockBroker_credentials".
Definition wasLoggedIn : string := "stockBroker_wasLoggedIn".
End STORAGE_KEYS.

Record SubscribedToken := { token : string; type : StreamingType }.

#[global] Instance SubscribedToken_eq_dec : EqDecision SubscribedToken.
Proof. solve_decision. Defined.

Record SavedCredentials :=
  { gscid : string; gcid : string; sessionId : string; deviceId : string }.

#[global] Instance SavedCredentials_eq_dec : EqDecision SavedCredentials.
Proof. solve_decision. Defined.

(** ** Values produced by [JSON.parse]

    Numbers are IEEE doubles, objects are finite maps from property names to
    values.  [undefined] never occurs inside a parsed value; a property read
    that yields [undefined] is [None]. *)

Inductive jsval :=
| JNull
| JBool (b : bool)
| JNum (x : float)
| JStr (s : string)
| JArr (l : list jsval)
| JObj (o : gmap string jsval).

(** Truthiness ([if (v)], [Boolean(v)]). *)
Definition truthy (v : jsval) : bool :=
  match v with
  | JNull => false
  | JBool b => b
  | JNum x => negb (PrimFloat.eqb x 0%float || PrimFloat.is_nan x)
  | JStr s => negb (String.eqb s "")
  | JArr _ | JObj _ => true
  end.

Definition truthy_opt (o : option jsval) : bool :=
  match o with Some v => truthy v | None => false end.

(** [v.k] for a [v] that is not [null].  The names read by the source
    ([response], [svcName], [streamingType], [data], [symbol] and the market
    fields) are own properties of objects only: on a number, a boolean, a
    string or an array they are [undefined]. *)
Definition get (v : jsval) (k : string) : option jsval :=
  match v with
  | JObj o => o !! k
  | _ => None
  end.

(** [a?.k]: [undefined] when [a] is [null] or [undefined]. *)
Definition opt_get (a : option jsval) (k : string) : option jsval :=
  match a with
  | None | Some JNull => None
  | Some v => get v k
  end.

(** [a ?? b] *)
Definition coalesce (a b : option jsval) : option jsval :=
  match a with
  | None | Some JNull => b
  | Some _ => a
  end.

(** [a ?? null], which is never [undefined]. *)
Definition or_null (a : option jsval) : jsval :=
  match a with
  | None => JNull
  | Some v => v
  end.

(** [v === "text"] *)
Definition is_text (o : option jsval) (text : string) : bool :=
  match o with
  | Some (JStr s) => String.eqb s text
  | _ => false
  end.

(** Own enumerable properties copied by [...v] when [v] is an object. *)
Definition own_props (v : jsval) : gmap string jsval :=
  match v with
  | JObj o => o
  | _ => ∅
  end.

(** ** Strings: [split(',')], [trim()], [filter(Boolean)]

    A string is the sequence of its code units, all below 256 here. *)

Definition is_space (c : ascii) : bool :=
  let n := nat_of_ascii c in
  (Nat.leb 9 n && Nat.leb n 13) || Nat.eqb n 32 || Nat.eqb n 160.

Fixpoint trim_start (s : string) : string :=
  match s with
  | String c r => if is_space c then trim_start r else s
  | EmptyString => EmptyString
  end.

Fixpoint trim_end (s : string) : string :=
  match s with
  | String c r =>
      match trim_end r with
      | EmptyString => if is_space c then EmptyString else String c EmptyString
      | r' => String c r'
      end
  | EmptyString => EmptyString
  end.

Definition trim (s : string) : string := trim_end (trim_start s).

(** [s.split(',')]: never empty, [""] splits into one empty piece. *)
Fixpoint split_comma (s : string) : list string :=
  match s with
  | EmptyString => [EmptyString]
  | String c r =>
      if Ascii.eqb c "," then EmptyString :: split_comma r
      else match split_comma r with
           | piece :: rest => String c piece :: rest
           | [] => [String c EmptyString]
           end
  end.

Definition nonempty (s : string) : bool := negb (String.eqb s "").

(** [newToken.split(',').map(t => t.trim()).filter(Boolean)] *)
Definition parse_tokens (newToken : string) : list string :=
  List.filter nonempty (List.map trim (split_comma newToken)).

(** ** Host functions the source calls but does not define *)

Class Builtins := {
  (** [String(x)] for a number [x], used when a number is a property key *)
  Number_toString : float → string;
  (** [JSON.stringify(tokens)] in [saveSubscriptions] *)
  JSON_stringify_tokens : list SubscribedToken → string;
  (** [JSON.stringify(creds)] in [saveCredentials] *)
  JSON_stringify_credentials : SavedCredentials → string
}.

(** [parts.join(",")] over pieces whose conversion may have thrown. *)
Fixpoint join_comma (parts : list (option string)) : option string :=
  match parts with
  | [] => Some EmptyString
  | [p] => p
  | p :: rest =>
      match p, join_comma rest with
      | Some s, Some t => Some (s ++ "," ++ t)
      | _, _ => None
      end
  end.

(** The property key a value becomes in [{ [symbol]: ... }]; [None] is the
    [TypeError] of an object whose own [toString] member is not callable. *)
Fixpoint to_property_key `{Builtins} (v : jsval) : option string :=
  match v with
  | JNull => Some "null"
  | JBool true => Some "true"
  | JBool false => Some "false"
  | JNum x => Some (Number_toString x)
  | JStr s => Some s
  | JArr l =>
      join_comma
        (List.map (fun e => match e with
                            | JNull => Some EmptyString
                            | _ => to_property_key e
                            end) l)
  | JObj o =>
      match o !! "toString" with
      | Some _ => None
      | None => Some "[object Object]"
      end
  end.

(** ** Outbound frames and the log *)

(** The [data] member of a request. *)
Inductive Payload :=
| Symbols (symbol : string)
    (** [{ symbols: [{ symbol }] }] *)
| Session (c : SavedCredentials).
    (** [{ gscid, gcid, sessionId, deviceId, device_type: "0" }] *)

(** The object under [request:]; a member that the literal does not have is
    [None]. *)
Record Request := {
  rq_data : Payload;
  rq_gscid : option string;
  rq_gcid : option string;
  rq_response_format : option string;
  rq_request_type : RequestType;
  rq_streamingType : StreamingType
}.

(** The request literal of [subscribeToken], [unsubscribeToken] and the
    replay after login. *)
Definition symbol_request (scope : SavedCredentials) (rt : RequestType)
    (symbol : string) (st : StreamingType) : Request :=
  {| rq_data := Symbols symbol;
     rq_gscid := Some (gscid scope);
     rq_gcid := Some (gcid scope);
     rq_response_format := None;
     rq_request_type := rt;
     rq_streamingType := st |}.

(** The request literal of [sendLogin] and [sendLogout]. *)
Definition session_request (scope : SavedCredentials) (rt : RequestType)
    (st : StreamingType) : Request :=
  {| rq_data := Session scope;
     rq_gscid := None;
     rq_gcid := None;
     rq_response_format := Some "json";
     rq_request_type := rt;
     rq_streamingType := st |}.

(** What a log entry shows. *)
Inductive Content :=
| Text (s : string)
| Pretty (v : jsval)            (** [JSON.stringify(parsed, null, 2)] *)
| PrettyRequest (r : Request).  (** [JSON.stringify(request, null, 2)] *)

(** A log entry; its [timestamp] is wall-clock time and is left out. *)
Record Message := { msg_type : MessageType; content : Content }.

(** ** The component's state *)

(** A WebSocket object: its ready state, the frames [send] handed to the
    network, and the credentials its handlers closed over when
    [connectWebSocket] created it. *)
Record Socket := {
  readyState : ReadyState;
  outbox : list Request;
  captured : SavedCredentials
}.

Record State := {
  wsStatus : WSStatus;
  isLoggedIn : bool;
  messages : list Message;
  subscribedTokens : list SubscribedToken;
  (** identity of the array held in [subscribedTokens]: every
      [setSubscribedTokens] stores a freshly allocated array *)
  subscribedTokens_id : nat;
  marketData : gmap string (gmap string jsval);
  (** the four form states [gscid], [gcid], [sessionId], [deviceId] *)
  credentials : SavedCredentials;
  newToken : string;
  streamingType : StreamingType;
  (** [wsRef.current]: an index into [sockets], or [null] *)
  wsRef : option nat;
  pendingSubscriptionsRef : list SubscribedToken;
  (** every WebSocket created so far, oldest first *)
  sockets : list Socket;
  (** [sendLogin] closures scheduled by [setTimeout], oldest first *)
  timers : list SavedCredentials;
  localStorage : gmap string string
}.

Definition set_wsStatus (v : WSStatus) (s : State) : State :=
  {| wsStatus := v; isLoggedIn := isLoggedIn s; messages := messages s;
     subscribedTokens := subscribedTokens s;
     subscribedTokens_id := subscribedTokens_id s; marketData := marketData s;
     credentials := credentials s; newToken := newToken s;
     streamingType := streamingType s; wsRef := wsRef s;
     pendingSubscriptionsRef := pendingSubscriptionsRef s;
     sockets := sockets s; timers := timers s; localStorage := localStorage s |}.

Definition setIsLoggedIn (v : bool) (s : State) : State :=
  {| wsStatus := wsStatus s; isLoggedIn := v; messages := messages s;
     subscribedTokens := subscribedTokens s;
     subscribedTokens_id := subscribedTokens_id s; marketData := marketData s;
     credentials := credentials s; newToken := newToken s;
     streamingType := streamingType s; wsRef := wsRef s;
     pendingSubscriptionsRef := pendingSubscriptionsRef s;
     sockets := sockets s; timers := timers s; localStorage := localStorage s |}.

Definition setMessages (v : list Message) (s : State) : State :=
  {| wsStatus := wsStatus s; isLoggedIn := isLoggedIn s; messages := v;
     subscribedTokens := subscribedTokens s;
     subscribedTokens_id := subscribedTokens_id s; marketData := marketData s;
     credentials := credentials s; newToken := newToken s;
     streamingType := streamingType s; wsRef := wsRef s;
     pendingSubscriptionsRef := pendingSubscriptionsRef s;
     sockets := sockets s; timers := timers s; localStorage := localStorage s |}.

(** Stores a new array, so the identity changes even when the contents do
    not. *)
Definition setSubscribedTokens (v : list SubscribedToken) (s : State) : State :=
  {| wsStatus := wsStatus s; isLoggedIn := isLoggedIn s; messages := messages s;
     subscribedTokens := v;
     subscribedTokens_id := S (subscribedTokens_id s); marketData := marketData s;
     credentials := credentials s; newToken := newToken s;
     streamingType := streamingType s; wsRef := wsRef s;
     pendingSubscriptionsRef := pendingSubscriptionsRef s;
     sockets := sockets s; timers := timers s; localStorage := localStorage s |}.

Definition setMarketData (v : gmap string (gmap string jsval)) (s : State) : State :=
  {| wsStatus := wsStatus s; isLoggedIn := isLoggedIn s; messages := messages s;
     subscribedTokens := subscribedTokens s;
     subscribedTokens_id := subscribedTokens_id s; marketData := v;
     credentials := credentials s; newToken := newToken s;
     streamingType := streamingType s; wsRef := wsRef s;
     pendingSubscriptionsRef := pendingSubscriptionsRef s;
     sockets := sockets s; timers := timers s; localStorage := localStorage s |}.

Definition setCredentials (v : SavedCredentials) (s : State) : State :=
  {| wsStatus := wsStatus s; isLoggedIn := isLoggedIn s; messages := messages s;
     subscribedTokens := subscribedTokens s;
     subscribedTokens_id := subscribedTokens_id s; marketData := marketData s;
     credentials := v; newToken := newToken s;
     streamingType := streamingType s; wsRef := wsRef s;
     pendingSubscriptionsRef := pendingSubscriptionsRef s;
     sockets := sockets s; timers := timers s; localStorage := localStorage s |}.

Definition setNewToken (v : string) (s : State) : State :=
  {| wsStatus := wsStatus s; isLoggedIn := isLoggedIn s; messages := messages s;
     subscribedTokens := subscribedTokens s;
     subscribedTokens_id := subscribedTokens_id s; marketData := marketData s;
     credentials := credentials s; newToken := v;
     streamingType := streamingType s; wsRef := wsRef s;
     pendingSubscriptionsRef := pendingSubscriptionsRef s;
     sockets := sockets s; timers := timers s; localStorage := localStorage s |}.

Definition setStreamingType (v : StreamingType) (s : State) : State :=
  {| wsStatus := wsStatus s; isLoggedIn := isLoggedIn s; messages := messages s;
     subscribedTokens := subscribedTokens s;
     subscribedTokens_id := subscribedTokens_id s; marketData := marketData s;
     credentials := credentials s; newToken := newToken s;
     streamingType := v; wsRef := wsRef s;
     pendingSubscriptionsRef := pendingSubscriptionsRef s;
     sockets := sockets s; timers := timers s; localStorage := localStorage s |}.

Definition set_wsRef (v : option nat) (s : State) : State :=
  {| wsStatus := wsStatus s; isLoggedIn := isLoggedIn s; messages := messages s;
     subscribedTokens := subscribedTokens s;
     subscribedTokens_id := subscribedTokens_id s; marketData := marketData s;
     credentials := credentials s; newToken := newToken s;
     streamingType := streamingType s; wsRef := v;
     pendingSubscriptionsRef := pendingSubscriptionsRef s;
     sockets := sockets s; timers := timers s; localStorage := localStorage s |}.

Definition set_pendingSubscriptionsRef (v : list SubscribedToken) (s : State) : State :=
  {| wsStatus := wsStatus s; isLoggedIn := isLoggedIn s; messages := messages s;
     subscribedTokens := subscribedTokens s;
     subscribedTokens_id := subscribedTokens_id s; marketData := marketData s;
     credentials := credentials s; newToken := newToken s;
     streamingType := streamingType s; wsRef := wsRef s;
     pendingSubscriptionsRef := v;
     sockets := sockets s; timers := timers s; localStorage := localStorage s |}.

Definition set_sockets (v : list Socket) (s : State) : State :=
  {| wsStatus := wsStatus s; isLoggedIn := isLoggedIn s; messages := messages s;
     subscribedTokens := subscribedTokens s;
     subscribedTokens_id := subscribedTokens_id s; marketData := marketData s;
     credentials := credentials s; newToken := newToken s;
     streamingType := streamingType s; wsRef := wsRef s;
     pendingSubscriptionsRef := pendingSubscriptionsRef s;
     sockets := v; timers := timers s; localStorage := localStorage s |}.

Definition set_timers (v : list SavedCredentials) (s : State) : State :=
  {| wsStatus := wsStatus s; isLoggedIn := isLoggedIn s; messages := messages s;
     subscribedTokens := subscribedTokens s;
     subscribedTokens_id := subscribedTokens_id s; marketData := marketData s;
     credentials := credentials s; newToken := newToken s;
     streamingType := streamingType s; wsRef := wsRef s;
     pendingSubscriptionsRef := pendingSubscriptionsRef s;
     sockets := sockets s; timers := v; localStorage := localStorage s |}.

Definition set_localStorage (v : gmap string string) (s : State) : State :=
  {| wsStatus := wsStatus s; isLoggedIn := isLoggedIn s; messages := messages s;
     subscribedTokens := subscribedTokens s;
     subscribedTokens_id := subscribedTokens_id s; marketData := marketData s;
     credentials := credentials s; newToken := newToken s;
     streamingType := streamingType s; wsRef := wsRef s;
     pendingSubscriptionsRef := pendingSubscriptionsRef s;
     sockets := sockets s; timers := timers s; localStorage := v |}.

(** ** Helpers shared by the handlers *)

Definition addMessage (t : MessageType) (c : Content) (s : State) : State :=
  setMessages (messages s ++ [{| msg_type := t; content := c |}]) s.

Definition getItem (k : string) (s : State) : option string := localStorage s !! k.

Definition setItem (k v : string) (s : State) : State :=
  set_localStorage (<[k := v]> (localStorage s)) s.

Definition removeItem (k : string) (s : State) : State :=
  set_localStorage (delete k (localStorage s)) s.

(** The object behind [wsRef.current]. *)
Definition current_socket (s : State) : option Socket :=
  match wsRef s with
  | Some i => sockets s !! i
  | None => None
  end.

(** [wsRef.current && wsRef.current.readyState === WebSocket.OPEN] *)
Definition is_open (s : State) : bool :=
  match current_socket s with
  | Some k => bool_decide (readyState k = OPEN)
  | None => false
  end.

Definition push_frame (r : Request) (k : Socket) : Socket :=
  {| readyState := readyState k; outbox := outbox k ++ [r]; captured := captured k |}.

(** [close()]: a socket that is connecting or open starts closing. *)
Definition close_socket (k : Socket) : Socket :=
  match readyState k with
  | CONNECTING | OPEN =>
      {| readyState := CLOSING; outbox := outbox k; captured := captured k |}
  | CLOSING | CLOSED => k
  end.

Definition set_readyState (r : ReadyState) (k : Socket) : Socket :=
  {| readyState := r; outbox := outbox k; captured := captured k |}.

(** [wsRef.current.send(...)] where the guard has found the socket open. *)
Definition transmit (r : Request) (s : State) : State :=
  match wsRef s with
  | Some i => set_sockets (alter (push_frame r) i (sockets s)) s
  | None => s
  end.

(** How a [try] block ends. *)
Inductive Completion :=
| Normal (s : State)
| Throw (s : State).

Definition completion_state (c : Completion) : State :=
  match c with
  | Normal s | Throw s => s
  end.

(** How a handler ends: the component renders its next state, or an updater
    raises while React renders and the component is torn down.  The state
    carried by [TornDown] is the one reached when that happened; what was
    sent on a socket before stays sent. *)
Inductive Outcome :=
| Rendered (s : State)
| TornDown (s : State).

Definition outcome_state (o : Outcome) : State :=
  match o with
  | Rendered s | TornDown s => s
  end.

(** [wsRef.current?.send(...)] with no guard before it: nothing happens on a
    [null] handle, [send] throws on a connecting socket and drops the frame
    on a closing or closed one. *)
Definition ws_send (r : Request) (s : State) : Completion :=
  match current_socket s with
  | None => Normal s
  | Some k =>
      match readyState k with
      | CONNECTING => Throw s
      | OPEN => Normal (transmit r s)
      | CLOSING | CLOSED => Normal s
      end
  end.

(** [`${i.token}-${i.type}`] *)
Definition sub_key (i : SubscribedToken) : string :=
  token i ++ "-" ++ StreamingType_text (type i).

Section Client.
Context {host_functions : Builtins}.

(** ** [connectWebSocket]

    [thrown] is the message of the exception raised by [new WebSocket(...)],
    when it raises one; [scope] holds the credentials of the render that
    created this closure. *)
Definition connectWebSocket (scope : SavedCredentials) (thrown : option string)
    (s : State) : State :=
  match thrown with
  | Some message => addMessage msg_error (Text ("Connection failed: " ++ message)) s
  | None =>
      set_wsRef (Some (length (sockets s)))
        (set_sockets
           (sockets s ++ [{| readyState := CONNECTING; outbox := []; captured := scope |}]) s)
  end.

(** [wsRef.current.onopen] *)
Definition onopen (scope : SavedCredentials) (s : State) : State :=
  let s1 := addMessage msg_success (Text "WebSocket connected")
              (set_wsStatus connected s) in
  if (0 <? length (pendingSubscriptionsRef s1))%nat
     || bool_decide (getItem STORAGE_KEYS.wasLoggedIn s1 = Some "true")
  then set_timers (timers s1 ++ [scope]) s1
  else s1.

(** The [forEach] that replays the saved tokens after login. *)
Fixpoint resubscribe (scope : SavedCredentials) (subs : list SubscribedToken)
    (s : State) : Completion :=
  match subs with
  | [] => Normal s
  | sub :: rest =>
      match ws_send (symbol_request scope subscribe (token sub) (type sub)) s with
      | Throw s' => Throw s'
      | Normal s' =>
          resubscribe scope rest
            (addMessage msg_sent
               (Text ("Auto-subscribe: " ++ token sub ++ " ("
                        ++ StreamingType_text (type sub) ++ ")")) s')
      end
  end.

(** [parsed.response?.svcName === "Broadcast" &&
     parsed.response?.streamingType === "login"] *)
Definition is_login_response (parsed : jsval) : bool :=
  is_text (opt_get (get parsed "response") "svcName") "Broadcast"
  && is_text (opt_get (get parsed "response") "streamingType") "login".

(** The pair [marketInfo], [symbol] chosen by the two accepted shapes. *)
Definition market_info (parsed : jsval) : option (jsval * option jsval) :=
  match opt_get (get parsed "response") "data" with
  | Some d =>
      if truthy d then Some (d, get d "symbol")
      else if truthy_opt (get parsed "symbol")
           then Some (parsed, get parsed "symbol") else None
  | None =>
      if truthy_opt (get parsed "symbol")
      then Some (parsed, get parsed "symbol") else None
  end.

(** The members the object literal [normalized] writes before the spread. *)
Definition canonical_members (symbol marketInfo : jsval) : list (string * jsval) :=
  [ ("symbol", symbol);
    ("ltp", or_null (get marketInfo "ltp"));
    ("change", or_null (get marketInfo "change"));
    ("changePercent",
      or_null (coalesce (get marketInfo "p_change") (get marketInfo "changePercent")));
    ("volume",
      or_null (coalesce (get marketInfo "tot_vol") (get marketInfo "volume")));
    ("high", or_null (get marketInfo "high"));
    ("low", or_null (get marketInfo "low"));
    ("open", or_null (get marketInfo "open"));
    ("close", or_null (get marketInfo "close")) ].

(** The object literal [normalized]: the canonical members first, then
    [...marketInfo], whose members replace those written before them. *)
Definition normalize (symbol marketInfo : jsval) : gmap string jsval :=
  own_props marketInfo ∪ list_to_map (canonical_members symbol marketInfo).

(** The market-data part of [onmessage].  The updater
    [prev => ({ ...prev, [symbol]: normalized })] runs while React renders,
    outside the handler's [try]; it raises when [symbol] has no property
    key. *)
Definition store_market_data (parsed : jsval) (s : State) : Outcome :=
  match market_info parsed with
  | Some (marketInfo, Some symbol) =>
      if truthy symbol then
        match to_property_key symbol with
        | Some key =>
            Rendered
              (setMarketData (<[key := normalize symbol marketInfo]> (marketData s)) s)
        | None => TornDown s
        end
      else Rendered s
  | _ => Rendered s
  end.

(** [wsRef.current.onmessage]; [parsed] is [JSON.parse(event.data)], [None]
    when it throws. *)
Definition onmessage (scope : SavedCredentials) (data : string)
    (parsed : option jsval) (s : State) : Outcome :=
  match parsed with
  | None => Rendered (addMessage msg_received (Text data) s)
  | Some p =>
      let s1 := addMessage msg_received (Pretty p) s in
      match p with
      | JNull =>
          (* reading [parsed.response] of [null] throws *)
          Rendered (addMessage msg_received (Text data) s1)
      | _ =>
          let logged :=
            if is_login_response p then
              resubscribe scope (pendingSubscriptionsRef s1)
                (addMessage msg_success
                   (Text "Login successful – auto-resubscribing tokens...")
                   (setIsLoggedIn true s1))
            else Normal s1 in
          match logged with
          | Throw s2 => Rendered (addMessage msg_received (Text data) s2)
          | Normal s2 => store_market_data p s2
          end
      end
  end.

(** [wsRef.current.onerror] *)
Definition onerror (s : State) : State :=
  set_wsStatus error (addMessage msg_error (Text "WebSocket error occurred") s).

(** [wsRef.current.onclose] *)
Definition onclose (s : State) : State :=
  addMessage msg_info (Text "WebSocket disconnected")
    (setIsLoggedIn false (set_wsStatus disconnected s)).

(** ** [disconnectWebSocket] *)
Definition disconnectWebSocket (s : State) : State :=
  let s1 := match wsRef s with
            | Some i => set_sockets (alter close_socket i (sockets s)) s
            | None => s
            end in
  let s2 := set_wsRef None s1 in
  let s3 := setIsLoggedIn false s2 in
  let s4 := setSubscribedTokens [] s3 in
  let s5 := setMarketData ∅ s4 in
  let s6 := set_pendingSubscriptionsRef [] s5 in
  let s7 := removeItem STORAGE_KEYS.subscriptions s6 in
  removeItem STORAGE_KEYS.wasLoggedIn s7.

(** ** [sendLogin] *)
Definition sendLogin (scope : SavedCredentials) (s : State) : State :=
  if negb (is_open s) then addMessage msg_error (Text "Not connected") s
  else
    let loginRequest := session_request scope subscribe login in
    addMessage msg_sent (PrettyRequest loginRequest) (transmit loginRequest s).

(** ** [sendLogout] *)
Definition sendLogout (scope : SavedCredentials) (s : State) : State :=
  if negb (is_open s) then s
  else
    let logoutRequest := session_request scope unsubscribe logout in
    let s1 := addMessage msg_sent (PrettyRequest logoutRequest)
                (transmit logoutRequest s) in
    let s2 := setIsLoggedIn false s1 in
    let s3 := setSubscribedTokens [] s2 in
    let s4 := setMarketData ∅ s3 in
    let s5 := set_pendingSubscriptionsRef [] s4 in
    let s6 := removeItem STORAGE_KEYS.wasLoggedIn s5 in
    removeItem STORAGE_KEYS.subscriptions s6.

(** ** [subscribeToken] *)

(** One turn of [tokens.forEach(...)]. *)
Definition send_subscribe (scope : SavedCredentials) (kind : StreamingType)
    (s : State) (tok : string) : State :=
  let request := symbol_request scope subscribe tok kind in
  addMessage msg_sent (PrettyRequest request) (transmit request s).

(** The updater passed to [setSubscribedTokens]. *)
Definition merge_subscriptions (prev newSubs : list SubscribedToken)
    : list SubscribedToken :=
  let existing : gset string := list_to_set (List.map sub_key prev) in
  let filtered :=
    List.filter (fun i => negb (bool_decide (sub_key i ∈ existing))) newSubs in
  prev ++ filtered.

Definition subscribeToken (s : State) : State :=
  if negb (is_open s) || negb (isLoggedIn s) then
    addMessage msg_error
      (Text (if negb (isLoggedIn s) then "Please login first" else "Not connected")) s
  else
    let tokens := parse_tokens (newToken s) in
    let s1 := fold_left (send_subscribe (credentials s) (streamingType s)) tokens s in
    let newSubs :=
      List.map (fun t => {| token := t; type := streamingType s |}) tokens in
    let updated := merge_subscriptions (subscribedTokens s1) newSubs in
    let s2 := set_pendingSubscriptionsRef updated (setSubscribedTokens updated s1) in
    setNewToken "" s2.

(** ** [unsubscribeToken] *)
Definition unsubscribeToken (tok : string) (kind : StreamingType) (s : State) : State :=
  if negb (is_open s) then s
  else
    let request := symbol_request (credentials s) unsubscribe tok kind in
    let s1 := addMessage msg_sent (PrettyRequest request) (transmit request s) in
    let updated :=
      List.filter
        (fun i => negb (bool_decide (token i = tok) && bool_decide (type i = kind)))
        (subscribedTokens s1) in
    let s2 := set_pendingSubscriptionsRef updated (setSubscribedTokens updated s1) in
    setMarketData (delete tok (marketData s2)) s2.

(** ** The persistence effects

    [effects before after] runs, after a render that took the state from
    [before] to [after], the three [useEffect] bodies whose dependencies
    changed. *)
Definition saveCredentials (c : SavedCredentials) (s : State) : State :=
  setItem STORAGE_KEYS.credentials (JSON_stringify_credentials c) s.

Definition saveSubscriptions (tokens : list SubscribedToken) (s : State) : State :=
  setItem STORAGE_KEYS.subscriptions (JSON_stringify_tokens tokens) s.

Definition bool_text (b : bool) : string := if b then "true" else "false".

Definition effects (before after : State) : State :=
  let s1 := if decide (credentials before = credentials after) then after
            else saveCredentials (credentials after) after in
  let s2 := if decide (subscribedTokens_id before = subscribedTokens_id after) then s1
            else saveSubscriptions (subscribedTokens after) s1 in
  if decide (isLoggedIn before = isLoggedIn after) then s2
  else setItem STORAGE_KEYS.wasLoggedIn (bool_text (isLoggedIn after)) s2.

(** ** First render and mount *)

(** The [useState] and [useRef] initial values, over a given store. *)
Definition initial (store : gmap string string) : State :=
  {| wsStatus := disconnected; isLoggedIn := false; messages := [];
     subscribedTokens := []; subscribedTokens_id := 0; marketData := ∅;
     credentials := {| gscid := "KS02"; gcid := "218";
                       sessionId := "dummy-session"; deviceId := "dummy-device" |};
     newToken := "NSECM:2885"; streamingType := ltpinfo;
     wsRef := None; pendingSubscriptionsRef := [];
     sockets := []; timers := []; localStorage := store |}.

(** [if (saved)] on the result of [getItem]. *)
Definition present (saved : option string) : bool :=
  match saved with
  | Some text => nonempty text
  | None => false
  end.

(** The effects of the first commit.  [creds] and [tokens] are what
    [JSON.parse] makes of the two saved texts, at the types the source
    declares for the results ([SavedCredentials], [SubscribedToken[]]);
    [None] when it throws.  A text that parses to a value of another shape
    has no counterpart here. *)
Definition mount (creds : option SavedCredentials)
    (tokens : option (list SubscribedToken)) (thrown : option string)
    (store : gmap string string) : State :=
  let s0 := initial store in
  let savedCreds := getItem STORAGE_KEYS.credentials s0 in
  let s1 := if present savedCreds then
              match creds with Some c => setCredentials c s0 | None => s0 end
            else s0 in
  let savedSubs := getItem STORAGE_KEYS.subscriptions s0 in
  let s2 := if present savedSubs then
              match tokens with
              | Some t => set_pendingSubscriptionsRef t (setSubscribedTokens t s1)
              | None => s1
              end
            else s1 in
  let wasLoggedIn := bool_decide (getItem STORAGE_KEYS.wasLoggedIn s0 = Some "true") in
  let s3 := if wasLoggedIn && present savedCreds && present savedSubs
            then connectWebSocket (credentials s0) thrown s2 else s2 in
  (* the three saving effects see the values of the first render *)
  let s4 := saveCredentials (credentials s0) s3 in
  let s5 := saveSubscriptions (subscribedTokens s0) s4 in
  let s6 := setItem STORAGE_KEYS.wasLoggedIn (bool_text (isLoggedIn s0)) s5 in
  effects s0 s6.

(** ** Events

    What the operator can do through the rendered controls and what the
    transport and the timer deliver. *)
Inductive Event :=
| ClickConnect (thrown : option string)
| ClickDisconnect
| ClickLogin
| ClickLogout
| ClickSubscribe
| ClickUnsubscribe (i : nat)
| ChangeCredentials (c : SavedCredentials)
| ChangeNewToken (text : string)
| ChangeStreamingType (kind : StreamingType)
| ClickClear
| WsOpen (id : nat)
| WsMessage (id : nat) (data : string) (parsed : option jsval)
| WsError (id : nat)
| WsClose (id : nat)
| Timeout.

Definition socket_state (id : nat) (s : State) : option ReadyState :=
  readyState <$> sockets s !! id.

(** Whether the event can occur: the button is rendered and not disabled,
    the socket is in a state in which the transport raises the event. *)
Definition enabled (e : Event) (s : State) : bool :=
  match e with
  | ClickConnect _ => bool_decide (wsStatus s = disconnected)
  | ClickDisconnect => negb (bool_decide (wsStatus s = disconnected))
  | ClickLogin => bool_decide (wsStatus s = connected) && negb (isLoggedIn s)
  | ClickLogout => isLoggedIn s
  | ClickSubscribe => isLoggedIn s && nonempty (trim (newToken s))
  | ClickUnsubscribe i => bool_decide (i < length (subscribedTokens s))
  | ChangeCredentials _ | ChangeNewToken _ | ClickClear => true
  | ChangeStreamingType kind =>
      bool_decide (kind = ltpinfo) || bool_decide (kind = marketPicture)
  | WsOpen id => bool_decide (socket_state id s = Some CONNECTING)
  | WsMessage id _ _ => bool_decide (socket_state id s = Some OPEN)
  | WsError id => bool_decide (is_Some (sockets s !! id))
  | WsClose id =>
      match socket_state id s with
      | Some CLOSED | None => false
      | Some _ => true
      end
  | Timeout => negb (bool_decide (timers s = []))
  end.

Definition socket_scope (id : nat) (s : State) : SavedCredentials :=
  match sockets s !! id with
  | Some k => captured k
  | None => credentials s
  end.

(** The handler an event runs. *)
Definition handle (e : Event) (s : State) : Outcome :=
  match e with
  | ClickConnect thrown => Rendered (connectWebSocket (credentials s) thrown s)
  | ClickDisconnect => Rendered (disconnectWebSocket s)
  | ClickLogin => Rendered (sendLogin (credentials s) s)
  | ClickLogout => Rendered (sendLogout (credentials s) s)
  | ClickSubscribe => Rendered (subscribeToken s)
  | ClickUnsubscribe i =>
      match subscribedTokens s !! i with
      | Some item => Rendered (unsubscribeToken (token item) (type item) s)
      | None => Rendered s
      end
  | ChangeCredentials c => Rendered (setCredentials c s)
  | ChangeNewToken text => Rendered (setNewToken text s)
  | ChangeStreamingType kind => Rendered (setStreamingType kind s)
  | ClickClear => Rendered (setMessages [] s)
  | WsOpen id =>
      Rendered (onopen (socket_scope id s)
              (set_sockets (alter (set_readyState OPEN) id (sockets s)) s))
  | WsMessage id data parsed => onmessage (socket_scope id s) data parsed s
  | WsError _ => Rendered (onerror s)
  | WsClose id =>
      Rendered (onclose (set_sockets (alter (set_readyState CLOSED) id (sockets s)) s))
  | Timeout =>
      match timers s with
      | closure :: rest => Rendered (sendLogin closure (set_timers rest s))
      | [] => Rendered s
      end
  end.

(** One event: the handler, then the effects of the render it causes.  No
    step is taken by an event that cannot occur, and none leads out of a
    component that was torn down. *)
Definition step (e : Event) (s : State) : option State :=
  if enabled e s then
    match handle e s with
    | Rendered s' => Some (effects s s')
    | TornDown _ => None
    end
  else None.

(** Running a sequence of events from a state. *)
Fixpoint run (es : list Event) (s : State) : option State :=
  match es with
  | [] => Some s
  | e :: rest =>
      match step e s with
      | Some s' => run rest s'
      | None => None
      end
  end.

(** The states the component can be in, from a given first state. *)
Inductive reachable (s0 : State) : State → Prop :=
| reachable_start : reachable s0 s0
| reachable_step s e s' :
    reachable s0 s → step e s = Some s' → reachable s0 s'.

End Client.

(** ** Sample data: a host, frames of the wire protocol, a live session *)

Definition quote : string := String (ascii_of_nat 34) EmptyString.

Definition quoted (s : string) : string := quote ++ s ++ quote.

Fixpoint join_with (sep : string) (parts : list string) : string :=
  match parts with
  | [] => EmptyString
  | [p] => p
  | p :: rest => p ++ sep ++ join_with sep rest
  end.

(** A stand-in for the host: the two serialisers write the JSON text of
    strings that need no escaping, [Number_toString] is a constant (no sample
    uses a number as a key). *)
Definition host : Builtins :=
  {| Number_toString := fun _ => "0";
     JSON_stringify_tokens := fun tokens =>
       "[" ++ join_with ","
                (List.map (fun i => "{" ++ quoted "token" ++ ":" ++ quoted (token i)
                                      ++ "," ++ quoted "type" ++ ":"
                                      ++ quoted (StreamingType_text (type i)) ++ "}")
                   tokens) ++ "]";
     JSON_stringify_credentials := fun c =>
       "{" ++ quoted "gscid" ++ ":" ++ quoted (gscid c)
           ++ "," ++ quoted "gcid" ++ ":" ++ quoted (gcid c)
           ++ "," ++ quoted "sessionId" ++ ":" ++ quoted (sessionId c)
           ++ "," ++ quoted "deviceId" ++ ":" ++ quoted (deviceId c) ++ "}" |}.

(** An object literal. *)
Definition obj (members : list (string * jsval)) : jsval := JObj (list_to_map members).

(** [{ response: { svcName: "Broadcast", streamingType: "login" } }] *)
Definition login_confirmation : jsval :=
  obj [("response", obj [("svcName", JStr "Broadcast"); ("streamingType", JStr "login")])].

(** [{ symbol: "NSECM:2885", ltp: 101.5, p_change: 1.2 }] *)
Definition tick1_data : jsval :=
  obj [("symbol", JStr "NSECM:2885"); ("ltp", JNum 101.5); ("p_change", JNum 1.2)].

(** [{ symbol: "NSECM:2885", ltp: 102.0 }] *)
Definition tick2_data : jsval :=
  obj [("symbol", JStr "NSECM:2885"); ("ltp", JNum 102)].

(** [{ response: { data: ... } }] *)
Definition data_frame (d : jsval) : jsval := obj [("response", obj [("data", d)])].

(** A frame that carries both aliases of the percent change and of the
    volume. *)
Definition both_aliases_data : jsval :=
  obj [("symbol", JStr "NSECM:2885"); ("p_change", JNum 1.25);
       ("changePercent", JNum 2.5); ("tot_vol", JNum 700); ("volume", JNum 900)].

(** Connect, transport opens, login, the server confirms. *)
Definition login_trace : list Event :=
  [ClickConnect None; WsOpen 0; ClickLogin; WsMessage 0 "login" (Some login_confirmation)].

(** The state after [login_trace], from a first render over an empty store. *)
Definition live_session : State :=
  Eval vm_compute in
  default (initial ∅) (run (host_functions := host) login_trace (initial ∅)).

(** [live_session] after subscribing to the same token as [ltpinfo] and as
    [marketPicture] and receiving one tick for it. *)
Definition watching_trace : list Event :=
  [ChangeNewToken "NSECM:2885"; ClickSubscribe;
   ChangeStreamingType marketPicture; ChangeNewToken "NSECM:2885"; ClickSubscribe;
   WsMessage 0 "tick" (Some (data_frame tick1_data))].

Definition watching_session : State :=
  Eval vm_compute in
  default live_session (run (host_functions := host) watching_trace live_session).

(** What an earlier session left in the store: credentials, two
    subscriptions and the login flag. *)
Definition saved_tokens : list SubscribedToken :=
  [{| token := "NSECM:2885"; type := ltpinfo |};
   {| token := "NSECM:1234"; type := marketPicture |}].

Definition saved_store : gmap string string :=
  <[STORAGE_KEYS.credentials :=
      JSON_stringify_credentials (Builtins := host) (credentials (initial ∅))]>
    (<[STORAGE_KEYS.subscriptions := JSON_stringify_tokens (Builtins := host) saved_tokens]>
       (<[STORAGE_KEYS.wasLoggedIn := "true"]> ∅)).

(** The component mounted over [saved_store]: it connects by itself. *)
Definition resumed_mount : State :=
  mount (host_functions := host) (Some (credentials (initial ∅))) (Some saved_tokens)
    None saved_store.

(** The transport opens and the delayed login is sent. *)
Definition resumed_trace : list Event := [WsOpen 0; Timeout].

Definition resumed_session : State :=
  Eval vm_compute in
  default resumed_mount (run (host_functions := host) resumed_trace resumed_mount).

(** After [login_trace]: subscribe to one token, the transport drops, the
    operator connects and logs in again and the server confirms, all before
    the delayed login of the second connection is due. *)
Definition relogin_trace : list Event :=
  [ChangeNewToken "NSECM:2885"; ClickSubscribe; WsClose 0;
   ClickConnect None; WsOpen 1; ClickLogin;
   WsMessage 1 "login" (Some login_confirmation)].

Definition relogged_session : State :=
  Eval vm_compute in
  default live_session (run (host_functions := host) relogin_trace live_session).

(** The names the object literal [normalized] writes itself. *)
Definition canonical_fields : list string :=
  ["symbol"; "ltp"; "change"; "changePercent"; "volume"; "high"; "low"; "open"; "close"].

(** The canonical fields that have a single source name. *)
Definition plain_fields : list string :=
  ["ltp"; "change"; "high"; "low"; "open"; "close"].

(** The registry and the list replayed after login hold the same entries. *)
Definition in_sync (s : State) : Prop :=
  pendingSubscriptionsRef s = subscribedTokens s.

(** The frames the socket [id] has sent. *)
Definition sent_on (id : nat) (s : State) : list Request :=
  match sockets s !! id with
  | Some k => outbox k
  | None => []
  end.

(** The subscribe request replayed for a registry entry. *)
Definition replay_request (scope : SavedCredentials) (sub : SubscribedToken) : Request :=
  symbol_request scope subscribe (token sub) (type sub).

(** Two states that differ at most in the sockets and the log. *)
Definition same_core (s s' : State) : Prop :=
  wsStatus s' = wsStatus s ∧ isLoggedIn s' = isLoggedIn s
  ∧ subscribedTokens s' = subscribedTokens s
  ∧ subscribedTokens_id s' = subscribedTokens_id s
  ∧ marketData s' = marketData s ∧ credentials s' = credentials s
  ∧ newToken s' = newToken s ∧ streamingType s' = streamingType s
  ∧ wsRef s' = wsRef s
  ∧ pendingSubscriptionsRef s' = pendingSubscriptionsRef s
  ∧ timers s' = timers s ∧ localStorage s' = localStorage s.

(** ** Notions used by the further properties *)

(** Whether a character occurs in a string. *)
Fixpoint occurs (c : ascii) (s : string) : bool :=
  match s with
  | EmptyString => false
  | String d r => Ascii.eqb d c || occurs c r
  end.


(** The store mirrors the state: the credentials key holds the text of the
    form's credentials, the subscriptions key the text of the registry, and
    the login flag reads "true" exactly when [isLoggedIn] is true. *)
Definition store_mirrors {host_functions : Builtins} (s : State) : Prop :=
  localStorage s !! STORAGE_KEYS.credentials
    = Some (JSON_stringify_credentials (credentials s))
  ∧ localStorage s !! STORAGE_KEYS.subscriptions
    = Some (JSON_stringify_tokens (subscribedTokens s))
  ∧ (localStorage s !! STORAGE_KEYS.wasLoggedIn = Some "true" ↔ isLoggedIn s = true).

(** Whether the frame yields a truthy symbol, in either accepted shape. *)
Definition carries_symbol {host_functions : Builtins} (parsed : jsval) : bool :=
  match market_info parsed with
  | Some (_, Some symbol) => truthy symbol
  | _ => false
  end.

(** The log entries [onmessage] writes for a frame that is neither a login
    confirmation nor market data. *)
Definition received_entries (data : string) (parsed : option jsval) : list Message :=
  match parsed with
  | None => [{| msg_type := msg_received; content := Text data |}]
  | Some JNull =>
      [{| msg_type := msg_received; content := Pretty JNull |};
       {| msg_type := msg_received; content := Text data |}]
  | Some p => [{| msg_type := msg_received; content := Pretty p |}]
  end.

(** The condition under which the mount effect calls [connectWebSocket]:
    [wasLoggedIn && savedCreds && savedSubs]. *)
Definition auto_connects (store : gmap string string) : bool :=
  bool_decide (store !! STORAGE_KEYS.wasLoggedIn = Some "true")
  && present (store !! STORAGE_KEYS.credentials)
  && present (store !! STORAGE_KEYS.subscriptions).

(** The two kinds the select offers. *)
Definition offered (kind : StreamingType) : Prop :=
  kind = ltpinfo ∨ kind = marketPicture.

(** The selected kind is one of the two offered, and every registry entry
    has an offered kind and a token that is non-empty, trimmed and free of
    commas. *)
Definition registry_ok (s : State) : Prop :=
  offered (streamingType s)
  ∧ ∀ i, i ∈ subscribedTokens s →
      offered (type i) ∧ token i ≠ EmptyString ∧ trim (token i) = token i
      ∧ occurs "," (token i) = false.

(** A stored record is well formed for its key: it has a truthy [symbol]
    member whose property key is the key it is stored under, and it has every
    canonical member (some possibly [null]). *)
Definition record_ok {host_functions : Builtins} (key : string)
    (record : gmap string jsval) : Prop :=
  (∃ symbol, record !! "symbol" = Some symbol ∧ truthy symbol = true
             ∧ to_property_key symbol = Some key)
  ∧ ∀ field, field ∈ canonical_fields → is_Some (record !! field).

Definition records_ok {host_functions : Builtins} (s : State) : Prop :=
  ∀ key record, marketData s !! key = Some record → record_ok key record.

(** From [s] to [s'] the handle and the ready states are the same, and
    every socket has sent what it had sent plus, possibly, new frames; new
    frames only on the socket behind the handle, and only if it is open. *)
Definition appends (s s' : State) : Prop :=
  wsRef s' = wsRef s
  ∧ ∀ j, socket_state j s' = socket_state j s
         ∧ ∃ new, sent_on j s' = (sent_on j s ++ new)%list
                  ∧ (new ≠ [] → wsRef s = Some j ∧ socket_state j s = Some OPEN).

(** ** More sample data *)

(** A login confirmation that also has a symbol at top level and a
    [response.data] without one. *)
Definition shadowed_confirmation : jsval :=
  obj [("symbol", JStr "NSECM:2885");
       ("response", obj [("svcName", JStr "Broadcast"); ("streamingType", JStr "login");
                         ("data", obj [("ltp", JNum 101.5)])])].

(** The resumed session after the server confirmed the login and sent one
    tick. *)
Definition resumed_watching_trace : list Event :=
  [WsOpen 0; Timeout; WsMessage 0 "login" (Some login_confirmation);
   WsMessage 0 "tick" (Some (data_frame tick1_data))].

Definition resumed_watching : State :=
  Eval vm_compute in
  default resumed_mount (run (host_functions := host) resumed_watching_trace resumed_mount).

(** The resumed session after its transport dropped and the operator
    pressed Connect again. *)
Definition reconnect_trace : list Event :=
  [WsOpen 0; Timeout; WsClose 0; ClickConnect None].

Definition reconnecting_session : State :=
  Eval vm_compute in
  default resumed_mount (run (host_functions := host) reconnect_trace resumed_mount).

(** Credentials other than the defaults, and the store an earlier session
    with them left behind. *)
Definition restored_credentials : SavedCredentials :=
  {| gscid := "AB07"; gcid := "501"; sessionId := "session-1"; deviceId := "device-1" |}.

Definition restored_store : gmap string string :=
  <[STORAGE_KEYS.credentials :=
      JSON_stringify_credentials (Builtins := host) restored_credentials]>
    (<[STORAGE_KEYS.subscriptions := JSON_stringify_tokens (Builtins := host) saved_tokens]>
       (<[STORAGE_KEYS.wasLoggedIn := "true"]> ∅)).

(** The component mounted over [saved_store] has connected by itself (socket
    0).  While that attempt is pending the operator presses Connect (socket
    1), which opens and sends the delayed login; the first attempt then
    fails, the status shows disconnected and the operator presses Connect
    once more (socket 2): the handle points at a connecting socket while the
    login sent on socket 1 is still to be confirmed. *)
Definition stale_handle_trace : list Event :=
  [ClickConnect None; WsOpen 1; Timeout; WsClose 0; ClickConnect None].

(** * Properties *)

Section ClientFacts.
Context {host_functions : Builtins}.

(** ** Values and records *)

Lemma own_props_get marketInfo field :
  own_props marketInfo !! field = get marketInfo field.
Proof. destruct marketInfo; simpl; try apply lookup_empty; done. Qed.

(** A member of the frame wins over the canonical member of the same name. *)
Lemma normalize_lookup symbol marketInfo field :
  normalize symbol marketInfo !! field =
    match get marketInfo field with
    | Some v => Some v
    | None => (list_to_map (canonical_members symbol marketInfo) : gmap string jsval) !! field
    end.
Proof.
  unfold normalize. rewrite lookup_union, own_props_get.
  destruct (get marketInfo field); simpl.
  - by rewrite union_Some_l.
  - by rewrite (left_id_L None _).
Qed.

Lemma normalize_present symbol marketInfo field v :
  get marketInfo field = Some v → normalize symbol marketInfo !! field = Some v.
Proof. intros Hget. by rewrite normalize_lookup, Hget. Qed.

Lemma normalize_absent symbol marketInfo field :
  get marketInfo field = None → field ∉ canonical_fields →
  normalize symbol marketInfo !! field = None.
Proof.
  intros Hget Hfield. rewrite normalize_lookup, Hget.
  apply not_elem_of_list_to_map_1. exact Hfield.
Qed.

Lemma normalize_plain_null symbol marketInfo field :
  field ∈ plain_fields → get marketInfo field = None →
  normalize symbol marketInfo !! field = Some JNull.
Proof.
  intros Hin Hget. rewrite normalize_lookup, Hget. unfold plain_fields in Hin.
  repeat (apply elem_of_cons in Hin as [-> | Hin];
          [unfold canonical_members; rewrite Hget; reflexivity |]).
  by apply elem_of_nil in Hin.
Qed.

(** ** The sockets *)

Lemma same_core_refl s : same_core s s.
Proof. repeat split. Qed.

Lemma same_core_trans s1 s2 s3 : same_core s1 s2 → same_core s2 s3 → same_core s1 s3.
Proof. unfold same_core. intros H12 H23. destruct_and!. repeat split; congruence. Qed.

Lemma same_core_addMessage t c s : same_core s (addMessage t c s).
Proof. repeat split. Qed.

Lemma same_core_transmit r s : same_core s (transmit r s).
Proof. unfold transmit. destruct (wsRef s); repeat split. Qed.

(** Replay through an open socket: every entry is sent, in order, on the
    socket behind [wsRef.current]; the other sockets are left alone. *)
Lemma resubscribe_sends scope subs : ∀ s i k,
  wsRef s = Some i → sockets s !! i = Some k → readyState k = OPEN →
  ∃ s', resubscribe scope subs s = Normal s'
        ∧ same_core s s'
        ∧ sockets s' !! i =
            Some {| readyState := OPEN;
                    outbox := outbox k ++ List.map (replay_request scope) subs;
                    captured := captured k |}
        ∧ ∀ j, j ≠ i → sockets s' !! j = sockets s !! j.
Proof.
  induction subs as [| sub rest IH]; intros s i k Href Hk Hopen; simpl.
  - exists s. split; [done |]. split; [apply same_core_refl |].
    split; [| done]. rewrite Hk, app_nil_r. destruct k; simpl in *; by subst.
  - unfold ws_send, current_socket. rewrite Href, Hk, Hopen.
    set (r := symbol_request scope subscribe (token sub) (type sub)).
    set (s1 := addMessage msg_sent _ (transmit r s)).
    assert (Hs1 : sockets s1 = alter (push_frame r) i (sockets s)).
    { unfold s1, transmit. rewrite Href. reflexivity. }
    destruct (IH s1 i (push_frame r k)) as (s' & Hrun & Hcore & Hi & Hother).
    + unfold s1, transmit. rewrite Href. exact Href.
    + rewrite Hs1, list_lookup_alter_eq, Hk. reflexivity.
    + exact Hopen.
    + exists s'. split; [exact Hrun |]. split.
      * eapply same_core_trans; [| exact Hcore].
        eapply same_core_trans; [apply same_core_transmit | apply same_core_addMessage].
      * split.
        -- rewrite Hi. simpl. rewrite <- app_assoc. reflexivity.
        -- intros j Hj. rewrite (Hother j Hj), Hs1.
           by rewrite list_lookup_alter_ne.
Qed.

(** Replay with no socket behind the handle, or one that is closing or
    closed: nothing is sent and nothing is thrown. *)
Lemma resubscribe_quiet scope subs : ∀ s,
  readyState <$> current_socket s ≠ Some CONNECTING →
  readyState <$> current_socket s ≠ Some OPEN →
  ∃ s', resubscribe scope subs s = Normal s' ∧ same_core s s' ∧ sockets s' = sockets s.
Proof.
  induction subs as [| sub rest IH]; intros s Hc Ho; simpl.
  - exists s. split; [done |]. split; [apply same_core_refl | done].
  - unfold ws_send.
    set (s1 := addMessage msg_sent
                 (Text ("Auto-subscribe: " ++ token sub ++ " ("
                          ++ StreamingType_text (type sub) ++ ")")) s).
    assert (Hs1 : current_socket s1 = current_socket s) by reflexivity.
    destruct (IH s1) as (s' & Hrun & Hcore & Hsock).
    { by rewrite Hs1. } { by rewrite Hs1. }
    assert (Hgoal : ∃ s', resubscribe scope rest s1 = Normal s'
                          ∧ same_core s s' ∧ sockets s' = sockets s).
    { exists s'. split; [done |]. split; [| done].
      eapply same_core_trans; [apply same_core_addMessage | exact Hcore]. }
    destruct (current_socket s) as [k |] eqn:Hk; [| exact Hgoal].
    destruct (readyState k) eqn:Hr; simpl in Hc, Ho; rewrite Hr in Hc, Ho;
      try done; exact Hgoal.
Qed.

(** Replay never throws unless the socket behind the handle is still
    connecting, and it touches only the sockets and the log. *)
Lemma resubscribe_completes scope subs s :
  readyState <$> current_socket s ≠ Some CONNECTING →
  ∃ s', resubscribe scope subs s = Normal s' ∧ same_core s s'.
Proof.
  intros Hc.
  destruct (decide (readyState <$> current_socket s = Some OPEN)) as [Ho | Ho].
  - unfold current_socket in Ho.
    destruct (wsRef s) as [i |] eqn:Href; [| done].
    destruct (sockets s !! i) as [k |] eqn:Hk; [| done].
    simpl in Ho. injection Ho as Ho.
    destruct (resubscribe_sends scope subs s i k Href Hk Ho) as (s' & Hrun & Hcore & _).
    by exists s'.
  - destruct (resubscribe_quiet scope subs s Hc Ho) as (s' & Hrun & Hcore & _).
    by exists s'.
Qed.

(** However the replay ends, it has touched only the sockets and the log. *)
Lemma resubscribe_core scope subs : ∀ s,
  same_core s (completion_state (resubscribe scope subs s)).
Proof.
  induction subs as [| sub rest IH]; intros s; simpl; [apply same_core_refl |].
  unfold ws_send.
  destruct (current_socket s) as [k |]; [destruct (readyState k) |]; simpl.
  - apply same_core_refl.
  - eapply same_core_trans; [apply same_core_transmit |].
    eapply same_core_trans; [apply same_core_addMessage | apply IH].
  - eapply same_core_trans; [apply same_core_addMessage | apply IH].
  - eapply same_core_trans; [apply same_core_addMessage | apply IH].
  - eapply same_core_trans; [apply same_core_addMessage | apply IH].
Qed.

(** The effects write to the store and to nothing else. *)
Lemma effects_fields before after :
  same_core after (set_localStorage (localStorage after) (effects before after))
  ∧ sockets (effects before after) = sockets after
  ∧ messages (effects before after) = messages after.
Proof.
  unfold effects, saveCredentials, saveSubscriptions, setItem.
  repeat case_decide; repeat split.
Qed.

Lemma effects_isLoggedIn before after :
  isLoggedIn (effects before after) = isLoggedIn after.
Proof. apply (effects_fields before after). Qed.

Lemma effects_subscribedTokens before after :
  subscribedTokens (effects before after) = subscribedTokens after.
Proof. apply (effects_fields before after). Qed.

Lemma effects_pendingSubscriptionsRef before after :
  pendingSubscriptionsRef (effects before after) = pendingSubscriptionsRef after.
Proof. apply (effects_fields before after). Qed.

Lemma effects_marketData before after :
  marketData (effects before after) = marketData after.
Proof. apply (effects_fields before after). Qed.

Lemma effects_wsStatus before after : wsStatus (effects before after) = wsStatus after.
Proof. apply (effects_fields before after). Qed.

Lemma effects_timers before after : timers (effects before after) = timers after.
Proof. apply (effects_fields before after). Qed.

Lemma effects_wsRef before after : wsRef (effects before after) = wsRef after.
Proof. apply (effects_fields before after). Qed.

Lemma effects_sockets before after : sockets (effects before after) = sockets after.
Proof. apply (effects_fields before after). Qed.

(** ** [onmessage] *)

Lemma market_info_null : market_info JNull = None.
Proof. reflexivity. Qed.

(** What [onmessage] does with a parsed value other than [null]. *)
Lemma onmessage_parsed scope data p s :
  p ≠ JNull →
  onmessage scope data (Some p) s =
    let s1 := addMessage msg_received (Pretty p) s in
    match (if is_login_response p then
             resubscribe scope (pendingSubscriptionsRef s1)
               (addMessage msg_success
                  (Text "Login successful – auto-resubscribing tokens...")
                  (setIsLoggedIn true s1))
           else Normal s1) with
    | Throw s2 => Rendered (addMessage msg_received (Text data) s2)
    | Normal s2 => store_market_data p s2
    end.
Proof. intros Hp. destruct p; done. Qed.

Lemma is_login_response_null : is_login_response JNull = false.
Proof. reflexivity. Qed.

(** [onmessage] leaves the registry, the handle, the timers and the store
    alone, and can only raise [isLoggedIn], which it does exactly on a login
    confirmation. *)
Lemma onmessage_fields scope data parsed s :
  let s' := outcome_state (onmessage scope data parsed s) in
  wsStatus s' = wsStatus s
  ∧ subscribedTokens s' = subscribedTokens s
  ∧ subscribedTokens_id s' = subscribedTokens_id s
  ∧ pendingSubscriptionsRef s' = pendingSubscriptionsRef s
  ∧ credentials s' = credentials s
  ∧ wsRef s' = wsRef s ∧ timers s' = timers s
  ∧ localStorage s' = localStorage s
  ∧ isLoggedIn s' =
      match parsed with
      | Some p => if is_login_response p then true else isLoggedIn s
      | None => isLoggedIn s
      end.
Proof.
  destruct parsed as [p |]; [| repeat split].
  assert (Hcases : p = JNull ∨ p ≠ JNull) by (destruct p; (by left) || (by right)).
  destruct Hcases as [-> | Hp]; [repeat split |].
  rewrite (onmessage_parsed _ _ _ _ Hp). cbv zeta.
  set (s1 := addMessage msg_received (Pretty p) s).
  destruct (is_login_response p).
  - pose proof (resubscribe_core scope (pendingSubscriptionsRef s1)
                  (addMessage msg_success
                     (Text "Login successful – auto-resubscribing tokens...")
                     (setIsLoggedIn true s1))) as Hcore.
    destruct (resubscribe _ _ _) as [s2 | s2]; simpl in Hcore;
      unfold same_core in Hcore; destruct_and!.
    + unfold store_market_data.
      destruct (market_info p) as [[marketInfo [symbol |]] |]; simpl;
        [destruct (truthy symbol); [destruct (to_property_key symbol) |] | |];
        simpl; repeat split; assumption.
    + simpl. repeat split; assumption.
  - unfold store_market_data.
    destruct (market_info p) as [[marketInfo [symbol |]] |]; simpl;
      [destruct (truthy symbol); [destruct (to_property_key symbol) |] | |];
      simpl; repeat split.
Qed.

(** C1 (amended).  A data frame whose symbol has the property key [key]
    stores, under [key], the record normalised from that frame alone,
    whether or not a record was stored there before: a first frame creates
    the record and a later frame replaces it.  In the stored record every
    field the frame carries has the frame's value; a field the frame does not
    carry is absent when it is not canonical and [null] when it is one of the
    single-name canonical fields, whatever an earlier frame had stored.  The
    records of the other symbols are kept. *)
Theorem C1_frame_replaces_record scope data p marketInfo symbol key s :
  market_info p = Some (marketInfo, Some symbol) →
  truthy symbol = true →
  to_property_key symbol = Some key →
  is_login_response p = false ∨ readyState <$> current_socket s ≠ Some CONNECTING →
  ∃ s', onmessage scope data (Some p) s = Rendered s'
    ∧ marketData s' !! key = Some (normalize symbol marketInfo)
    ∧ (∀ other, other ≠ key → marketData s' !! other = marketData s !! other)
    ∧ (∀ field v, get marketInfo field = Some v →
         normalize symbol marketInfo !! field = Some v)
    ∧ (∀ field, get marketInfo field = None → field ∉ canonical_fields →
         normalize symbol marketInfo !! field = None)
    ∧ (∀ field, field ∈ plain_fields → get marketInfo field = None →
         normalize symbol marketInfo !! field = Some JNull).
Proof.
  intros Hinfo Htruthy Hkey Hreplay.
  assert (Hp : p ≠ JNull) by (intros ->; by rewrite market_info_null in Hinfo).
  rewrite (onmessage_parsed _ _ _ _ Hp). cbv zeta.
  set (s1 := addMessage msg_received (Pretty p) s).
  assert (Hlogged : ∃ s2,
    (if is_login_response p then
       resubscribe scope (pendingSubscriptionsRef s1)
         (addMessage msg_success
            (Text "Login successful – auto-resubscribing tokens...")
            (setIsLoggedIn true s1))
     else Normal s1) = Normal s2 ∧ marketData s2 = marketData s).
  { destruct (is_login_response p) eqn:Hlogin.
    - destruct Hreplay as [? | Hsock]; [done |].
      destruct (resubscribe_completes scope (pendingSubscriptionsRef s1)
                  (addMessage msg_success
                     (Text "Login successful – auto-resubscribing tokens...")
                     (setIsLoggedIn true s1)) Hsock) as (s2 & Hrun & Hcore).
      exists s2. split; [exact Hrun |].
      unfold same_core in Hcore. destruct_and!. assumption.
    - by exists s1. }
  destruct Hlogged as (s2 & -> & Hmarket).
  unfold store_market_data. rewrite Hinfo, Htruthy, Hkey.
  eexists. split; [reflexivity |]. simpl. rewrite Hmarket.
  split; [by rewrite lookup_insert_eq |].
  split; [intros other Hother; by rewrite lookup_insert_ne |].
  split; [apply normalize_present |].
  split; [apply normalize_absent | apply normalize_plain_null].
Qed.

(** ** The commands *)

Lemma send_subscribe_core scope kind tokens : ∀ s,
  same_core s (fold_left (send_subscribe scope kind) tokens s).
Proof.
  induction tokens as [| tok rest IH]; intros s; simpl; [apply same_core_refl |].
  eapply same_core_trans; [| apply IH]. unfold send_subscribe.
  eapply same_core_trans; [apply same_core_transmit | apply same_core_addMessage].
Qed.

Lemma sendLogin_core scope s : same_core s (sendLogin scope s).
Proof.
  unfold sendLogin. destruct (is_open s); simpl; [| apply same_core_addMessage].
  eapply same_core_trans; [apply same_core_transmit | apply same_core_addMessage].
Qed.

Lemma connectWebSocket_isLoggedIn scope thrown s :
  isLoggedIn (connectWebSocket scope thrown s) = isLoggedIn s.
Proof. by destruct thrown. Qed.

Lemma disconnectWebSocket_isLoggedIn s : isLoggedIn (disconnectWebSocket s) = false.
Proof. reflexivity. Qed.

Lemma sendLogout_isLoggedIn scope s :
  isLoggedIn (sendLogout scope s) = if is_open s then false else isLoggedIn s.
Proof. unfold sendLogout. by destruct (is_open s). Qed.

Lemma subscribeToken_isLoggedIn s : isLoggedIn (subscribeToken s) = isLoggedIn s.
Proof.
  unfold subscribeToken.
  destruct (negb (is_open s) || negb (isLoggedIn s)); simpl; [done |].
  apply (send_subscribe_core (credentials s) (streamingType s)
           (parse_tokens (newToken s)) s).
Qed.

Lemma unsubscribeToken_isLoggedIn tok kind s :
  isLoggedIn (unsubscribeToken tok kind s) = isLoggedIn s.
Proof.
  unfold unsubscribeToken. destruct (is_open s); simpl; [| done].
  apply (same_core_transmit _ s).
Qed.

Lemma onopen_isLoggedIn scope s : isLoggedIn (onopen scope s) = isLoggedIn s.
Proof. unfold onopen. by case_match. Qed.

(** What each event does to [isLoggedIn]. *)
Lemma handle_isLoggedIn e s :
  isLoggedIn (outcome_state (handle e s)) =
    match e with
    | ClickDisconnect | WsClose _ => false
    | ClickLogout => if is_open s then false else isLoggedIn s
    | WsMessage _ _ (Some p) => if is_login_response p then true else isLoggedIn s
    | _ => isLoggedIn s
    end.
Proof.
  destruct e; simpl; try reflexivity.
  - apply connectWebSocket_isLoggedIn.
  - apply (sendLogin_core _ s).
  - apply sendLogout_isLoggedIn.
  - apply subscribeToken_isLoggedIn.
  - destruct (subscribedTokens s !! i); simpl; [| done].
    apply unsubscribeToken_isLoggedIn.
  - by rewrite onopen_isLoggedIn.
  - pose proof (onmessage_fields (socket_scope id s) data parsed s) as Hfields.
    cbv zeta in Hfields. destruct_and!. assumption.
  - destruct (timers s) as [| closure rest]; simpl; [done |].
    apply (sendLogin_core closure (set_timers rest s)).
Qed.

Lemma step_outcome e s s' :
  step e s = Some s' →
  enabled e s = true ∧ ∃ mid, handle e s = Rendered mid ∧ s' = effects s mid.
Proof.
  unfold step. destruct (enabled e s); [| done].
  destruct (handle e s) as [mid | mid]; [| done].
  intros [= <-]. eauto.
Qed.

Lemma step_isLoggedIn e s s' :
  step e s = Some s' →
  isLoggedIn s' =
    match e with
    | ClickDisconnect | WsClose _ => false
    | ClickLogout => if is_open s then false else isLoggedIn s
    | WsMessage _ _ (Some p) => if is_login_response p then true else isLoggedIn s
    | _ => isLoggedIn s
    end.
Proof.
  intros (_ & mid & Hmid & ->)%step_outcome.
  rewrite effects_isLoggedIn, <- handle_isLoggedIn, Hmid. reflexivity.
Qed.

(** C2 (amended).  Across one event, [isLoggedIn] turns true only when the
    event is an inbound frame that is a login confirmation (never on sending
    a login request, by the button or by the timer); it turns false only on
    logout, on disconnect or on transport close; disconnect, transport close
    and a logout issued while the transport is open each leave it false; a
    transport error leaves it as it was. *)
Theorem C2_auth_status_transitions e s s' :
  step e s = Some s' →
  (isLoggedIn s = false → isLoggedIn s' = true →
     ∃ id data p, e = WsMessage id data (Some p) ∧ is_login_response p = true)
  ∧ (isLoggedIn s = true → isLoggedIn s' = false →
       e = ClickLogout ∨ e = ClickDisconnect ∨ ∃ id, e = WsClose id)
  ∧ (e = ClickDisconnect ∨ (∃ id, e = WsClose id)
       ∨ (e = ClickLogout ∧ is_open s = true) → isLoggedIn s' = false)
  ∧ ((∃ id, e = WsError id) ∨ e = ClickLogin ∨ e = Timeout →
       isLoggedIn s' = isLoggedIn s).
Proof.
  intros Hstep. pose proof (step_isLoggedIn e s s' Hstep) as Hlogged.
  repeat split.
  - intros Hbefore Hafter. rewrite Hafter, Hbefore in Hlogged.
    destruct e; try discriminate.
    + by destruct (is_open s).
    + destruct parsed as [p |]; [| discriminate].
      destruct (is_login_response p) eqn:Hlogin; [eauto | discriminate].
  - intros Hbefore Hafter. rewrite Hafter, Hbefore in Hlogged.
    destruct e; try discriminate; eauto.
    destruct parsed as [p |]; [| discriminate].
    by destruct (is_login_response p).
  - intros [-> | [[id ->] | [-> Hopen]]]; try exact Hlogged.
    by rewrite Hopen in Hlogged.
  - intros [[id ->] | [-> | ->]]; exact Hlogged.
Qed.

(** ** Runs *)

Lemma run_reachable es : ∀ s0 s s',
  reachable s0 s → run es s = Some s' → reachable s0 s'.
Proof.
  induction es as [| e rest IH]; simpl; intros s0 s s' Hreach Hrun.
  - by injection Hrun as <-.
  - destruct (step e s) as [mid |] eqn:Hstep; [| done].
    eapply IH; [| exact Hrun]. by eapply reachable_step.
Qed.

(** ** The registry and the replay list *)

Lemma handle_in_sync e s : in_sync s → in_sync (outcome_state (handle e s)).
Proof.
  unfold in_sync. intros Hsync. destruct e; simpl; try done.
  - by destruct thrown.
  - pose proof (sendLogin_core (credentials s) s) as Hcore.
    unfold same_core in Hcore. destruct_and!. congruence.
  - unfold sendLogout. by destruct (is_open s).
  - unfold subscribeToken. by destruct (negb (is_open s) || negb (isLoggedIn s)).
  - destruct (subscribedTokens s !! i); simpl; [| done].
    unfold unsubscribeToken. by destruct (is_open s).
  - unfold onopen. by case_match.
  - pose proof (onmessage_fields (socket_scope id s) data parsed s) as Hfields.
    cbv zeta in Hfields. destruct_and!. congruence.
  - destruct (timers s) as [| closure rest]; simpl; [done |].
    pose proof (sendLogin_core closure (set_timers rest s)) as Hcore.
    unfold same_core in Hcore. destruct_and!. simpl in *. congruence.
Qed.

Lemma effects_in_sync before after : in_sync after → in_sync (effects before after).
Proof.
  unfold in_sync.
  by rewrite effects_pendingSubscriptionsRef, effects_subscribedTokens.
Qed.

Lemma step_in_sync e s s' : step e s = Some s' → in_sync s → in_sync s'.
Proof.
  intros (_ & mid & Hmid & ->)%step_outcome Hsync.
  apply effects_in_sync. pose proof (handle_in_sync e s Hsync) as Hnext.
  by rewrite Hmid in Hnext.
Qed.

Lemma mount_in_sync creds tokens thrown store :
  in_sync (mount creds tokens thrown store).
Proof.
  unfold mount. apply effects_in_sync. unfold in_sync. simpl.
  repeat case_match; simpl; try done;
    match goal with
    | |- context [connectWebSocket ?c ?t ?s] => by destruct t
    end.
Qed.

(** From the mounted component on, the list replayed after login is the
    registry. *)
Lemma reachable_in_sync creds tokens thrown store s :
  reachable (mount creds tokens thrown store) s → in_sync s.
Proof.
  induction 1 as [| s e s' _ IH Hstep]; [apply mount_in_sync |].
  by apply (step_in_sync e s s').
Qed.

Lemma store_market_data_sockets p s :
  sockets (outcome_state (store_market_data p s)) = sockets s.
Proof.
  unfold store_market_data.
  destruct (market_info p) as [[marketInfo [symbol |]] |]; simpl; try done.
  destruct (truthy symbol); [destruct (to_property_key symbol) |]; done.
Qed.

(** The replay after login, when the transport behind [wsRef.current] is
    open.  A login confirmation, on whichever socket it arrives, while the
    registry holds N entries makes the handler send exactly N frames on the
    transport behind the handle, one per registry entry and in registry
    order, each a subscribe request for that entry's token with that entry's
    stream kind as [streamingType]; no other socket sends anything.  The
    handler does not look at the ready state of that transport: what happens
    when it is not open is evaluated further down. *)
Theorem replay_on_open_handle creds tokens thrown store s scope data p id k :
  reachable (mount creds tokens thrown store) s →
  wsRef s = Some id → sockets s !! id = Some k → readyState k = OPEN →
  is_login_response p = true →
  let s' := outcome_state (onmessage scope data (Some p) s) in
  sent_on id s' = (sent_on id s ++ List.map (replay_request scope) (subscribedTokens s))%list
  ∧ length (List.map (replay_request scope) (subscribedTokens s))
      = length (subscribedTokens s)
  ∧ (∀ sub, rq_request_type (replay_request scope sub) = subscribe
            ∧ rq_data (replay_request scope sub) = Symbols (token sub)
            ∧ rq_streamingType (replay_request scope sub) = type sub)
  ∧ ∀ j, j ≠ id → sent_on j s' = sent_on j s.
Proof.
  intros Hreach Href Hk Hopen Hlogin s'.
  split; [| split; [apply length_map | split; [done |]]].
  all: assert (Hp : p ≠ JNull)
    by (intros ->; by rewrite is_login_response_null in Hlogin).
  all: unfold s'; rewrite (onmessage_parsed _ _ _ _ Hp); cbv zeta; rewrite Hlogin.
  all: set (s1 := addMessage msg_received (Pretty p) s).
  all: destruct (resubscribe_sends scope (pendingSubscriptionsRef s1)
                   (addMessage msg_success
                      (Text "Login successful – auto-resubscribing tokens...")
                      (setIsLoggedIn true s1)) id k Href Hk Hopen)
         as (s2 & -> & _ & Hid & Hother).
  - unfold sent_on. rewrite store_market_data_sockets, Hid, Hk. simpl.
    pose proof (reachable_in_sync _ _ _ _ _ Hreach) as Hsync.
    unfold in_sync in Hsync. by rewrite <- Hsync.
  - intros j Hj. unfold sent_on.
    by rewrite store_market_data_sockets, (Hother j Hj).
Qed.

(** ** [disconnectWebSocket] and the store *)

(** When the body of [disconnectWebSocket] returns, the session is reset and
    both keys are gone from the store. *)
Lemma disconnectWebSocket_resets s :
  let s' := disconnectWebSocket s in
  isLoggedIn s' = false ∧ subscribedTokens s' = [] ∧ marketData s' = ∅
  ∧ pendingSubscriptionsRef s' = [] ∧ wsRef s' = None
  ∧ localStorage s' !! STORAGE_KEYS.subscriptions = None
  ∧ localStorage s' !! STORAGE_KEYS.wasLoggedIn = None.
Proof.
  simpl. repeat split.
  - rewrite lookup_delete_ne by done. apply lookup_delete_eq.
  - apply lookup_delete_eq.
Qed.

Lemma disconnectWebSocket_fields s :
  credentials (disconnectWebSocket s) = credentials s
  ∧ subscribedTokens_id (disconnectWebSocket s) = S (subscribedTokens_id s)
  ∧ localStorage (disconnectWebSocket s) =
      delete STORAGE_KEYS.wasLoggedIn
        (delete STORAGE_KEYS.subscriptions (localStorage s)).
Proof. unfold disconnectWebSocket. destruct (wsRef s); repeat split. Qed.

(** The render that follows stores a new array in [subscribedTokens], so the
    saving effect runs and writes the subscriptions key again; the login flag
    is written again when [isLoggedIn] was true. *)
Lemma disconnect_then_effects s s' :
  step ClickDisconnect s = Some s' →
  isLoggedIn s' = false ∧ subscribedTokens s' = [] ∧ marketData s' = ∅
  ∧ localStorage s' !! STORAGE_KEYS.subscriptions = Some (JSON_stringify_tokens [])
  ∧ localStorage s' !! STORAGE_KEYS.wasLoggedIn =
      if isLoggedIn s then Some "false" else None.
Proof.
  intros (_ & mid & [= <-] & ->)%step_outcome.
  rewrite effects_isLoggedIn, effects_subscribedTokens, effects_marketData.
  do 3 (split; [reflexivity |]).
  destruct (disconnectWebSocket_fields s) as (Hcreds & Hid & Hstore).
  unfold effects. rewrite Hcreds, Hid, disconnectWebSocket_isLoggedIn.
  rewrite !(decide_True (P := credentials s = credentials s)) by done.
  rewrite !(decide_False (P := subscribedTokens_id s = S (subscribedTokens_id s)))
    by lia.
  unfold saveSubscriptions, setItem, set_localStorage.
  destruct (isLoggedIn s).
  - rewrite !decide_False by done. cbn [localStorage]. split.
    + rewrite lookup_insert_ne by done. apply lookup_insert_eq.
    + apply lookup_insert_eq.
  - rewrite !decide_True by done. cbn [localStorage]. rewrite Hstore. split.
    + apply lookup_insert_eq.
    + rewrite lookup_insert_ne by done. apply lookup_delete_eq.
Qed.

(** ** [subscribeToken] *)

(** C5.  Invoked while [isLoggedIn] is false or while the transport is not
    open, [subscribeToken] only appends an error entry to the log: no socket
    sends anything, the registry, the replay list, the market data and the
    store stay as they were, and the render that follows writes nothing to the
    store. *)
Theorem C5_subscribe_rejected s :
  isLoggedIn s = false ∨ is_open s = false →
  subscribeToken s =
    addMessage msg_error
      (Text (if isLoggedIn s then "Not connected" else "Please login first")) s
  ∧ sockets (subscribeToken s) = sockets s
  ∧ subscribedTokens (subscribeToken s) = subscribedTokens s
  ∧ pendingSubscriptionsRef (subscribeToken s) = pendingSubscriptionsRef s
  ∧ marketData (subscribeToken s) = marketData s
  ∧ isLoggedIn (subscribeToken s) = isLoggedIn s
  ∧ localStorage (subscribeToken s) = localStorage s
  ∧ effects s (subscribeToken s) = subscribeToken s.
Proof.
  intros Hguard.
  assert (Hreject : subscribeToken s =
    addMessage msg_error
      (Text (if isLoggedIn s then "Not connected" else "Please login first")) s).
  { unfold subscribeToken.
    destruct Hguard as [-> | ->]; simpl; [by rewrite orb_true_r |].
    by destruct (isLoggedIn s). }
  rewrite Hreject. repeat split.
  unfold effects; simpl. by rewrite !decide_True by done.
Qed.

(** ** De-duplication in the registry *)

Lemma NoDup_List_filter {A} (f : A → bool) (l : list A) :
  NoDup l → NoDup (List.filter f l).
Proof.
  induction 1 as [| x l Hx _ IH]; simpl; [constructor |].
  destruct (f x); [| exact IH]. constructor; [| exact IH].
  intros Hin. apply Hx. apply list_elem_of_In in Hin.
  apply filter_In in Hin as [Hin _]. by apply list_elem_of_In.
Qed.

Lemma sub_key_registered i prev :
  i ∈ prev → sub_key i ∈ (list_to_set (List.map sub_key prev) : gset string).
Proof.
  intros Hin. apply elem_of_list_to_set, list_elem_of_In, in_map.
  by apply list_elem_of_In.
Qed.

(** Entries that are in the registry already are dropped by the updater. *)
Lemma merge_subscriptions_registered prev newSubs :
  (∀ i, i ∈ newSubs → i ∈ prev) → merge_subscriptions prev newSubs = prev.
Proof.
  intros Hall. unfold merge_subscriptions.
  assert (Hnone : List.filter
            (fun i => negb (bool_decide
               (sub_key i ∈ (list_to_set (List.map sub_key prev) : gset string))))
            newSubs = []).
  { induction newSubs as [| i rest IH]; simpl; [done |].
    rewrite bool_decide_eq_true_2
      by (apply sub_key_registered, Hall; by left).
    simpl. apply IH. intros j Hj. apply Hall. by right. }
  rewrite Hnone. apply app_nil_r.
Qed.

(** The updater compares the new entries with the registry, not with each
    other: it keeps the registry free of duplicates when the new entries are
    pairwise distinct. *)
Lemma merge_subscriptions_NoDup prev newSubs :
  NoDup prev → NoDup newSubs → NoDup (merge_subscriptions prev newSubs).
Proof.
  intros Hprev Hnew. unfold merge_subscriptions.
  apply NoDup_app. split; [exact Hprev |]. split.
  - intros i Hi Hfiltered.
    apply list_elem_of_In, filter_In in Hfiltered as [_ Hkey].
    apply negb_true_iff, bool_decide_eq_false in Hkey.
    apply Hkey. by apply sub_key_registered.
  - by apply NoDup_List_filter.
Qed.

Lemma subscribeToken_subscribedTokens s :
  is_open s = true → isLoggedIn s = true →
  subscribedTokens (subscribeToken s) =
    merge_subscriptions (subscribedTokens s)
      (List.map (fun t => {| token := t; type := streamingType s |})
         (parse_tokens (newToken s))).
Proof.
  intros Hopen Hlogged. unfold subscribeToken. rewrite Hopen, Hlogged. simpl.
  pose proof (send_subscribe_core (credentials s) (streamingType s)
                (parse_tokens (newToken s)) s) as Hcore.
  unfold same_core in Hcore. destruct_and!. congruence.
Qed.

Lemma subscribeToken_NoDup s :
  NoDup (subscribedTokens s) → NoDup (parse_tokens (newToken s)) →
  NoDup (subscribedTokens (subscribeToken s)).
Proof.
  intros Hprev Htokens.
  destruct (is_open s) eqn:Hopen; [destruct (isLoggedIn s) eqn:Hlogged |].
  - rewrite subscribeToken_subscribedTokens by done.
    apply merge_subscriptions_NoDup; [exact Hprev |].
    assert (Hinj : Inj (=) (=) (fun t => {| token := t; type := streamingType s |}))
      by (intros t1 t2 Heq; by injection Heq).
    by apply (NoDup_fmap_2 (fun t => {| token := t; type := streamingType s |})).
  - unfold subscribeToken. by rewrite Hopen, Hlogged.
  - unfold subscribeToken. by rewrite Hopen.
Qed.

Lemma unsubscribeToken_NoDup tok kind s :
  NoDup (subscribedTokens s) → NoDup (subscribedTokens (unsubscribeToken tok kind s)).
Proof.
  intros Hprev. unfold unsubscribeToken. destruct (is_open s); simpl; [| done].
  apply NoDup_List_filter.
  by rewrite (proj1 (proj2 (proj2 (same_core_transmit _ s)))).
Qed.

(** ** Field aliases *)

(** The percent change that is stored: the frame's own [changePercent]
    member when it has one, [p_change] only when it has none. *)
Lemma normalize_changePercent symbol marketInfo :
  normalize symbol marketInfo !! "changePercent" =
    Some match get marketInfo "changePercent" with
         | Some v => v
         | None => or_null (get marketInfo "p_change")
         end.
Proof.
  rewrite normalize_lookup.
  destruct (get marketInfo "changePercent") as [v |] eqn:Hown; [done |].
  unfold canonical_members. rewrite Hown.
  by destruct (get marketInfo "p_change") as [[] |].
Qed.

Lemma normalize_volume symbol marketInfo :
  normalize symbol marketInfo !! "volume" =
    Some match get marketInfo "volume" with
         | Some v => v
         | None => or_null (get marketInfo "tot_vol")
         end.
Proof.
  rewrite normalize_lookup.
  destruct (get marketInfo "volume") as [v |] eqn:Hown; [done |].
  unfold canonical_members. rewrite Hown.
  by destruct (get marketInfo "tot_vol") as [[] |].
Qed.

(** A frame that does not carry the second alias gets the first one, or
    [null] when it carries neither. *)
Lemma normalize_alias_fallback symbol marketInfo :
  get marketInfo "changePercent" = None → get marketInfo "volume" = None →
  normalize symbol marketInfo !! "changePercent"
    = Some (or_null (get marketInfo "p_change"))
  ∧ normalize symbol marketInfo !! "volume"
    = Some (or_null (get marketInfo "tot_vol")).
Proof.
  intros Hpercent Hvolume.
  by rewrite normalize_changePercent, normalize_volume, Hpercent, Hvolume.
Qed.

(** ** [sendLogin], [connectWebSocket], [unsubscribeToken] *)

Lemma is_open_socket s :
  is_open s = true →
  ∃ id k, wsRef s = Some id ∧ sockets s !! id = Some k ∧ readyState k = OPEN.
Proof.
  unfold is_open, current_socket. intros Hopen.
  destruct (wsRef s) as [id |]; [| done].
  destruct (sockets s !! id) as [k |] eqn:Hk; [| done].
  apply bool_decide_eq_true in Hopen. eauto.
Qed.

Lemma transmit_sent_on r s id k :
  wsRef s = Some id → sockets s !! id = Some k →
  sent_on id (transmit r s) = (outbox k ++ [r])%list
  ∧ ∀ j, j ≠ id → sent_on j (transmit r s) = sent_on j s.
Proof.
  intros Href Hk. unfold sent_on, transmit. rewrite Href. simpl. split.
  - by rewrite list_lookup_alter_eq, Hk.
  - intros j Hj. by rewrite list_lookup_alter_ne.
Qed.

(** [subscribeToken] sends one request per token of the input, whether or
    not the pair is registered already. *)
Lemma send_subscribe_sends scope kind tokens : ∀ s id k,
  wsRef s = Some id → sockets s !! id = Some k →
  sent_on id (fold_left (send_subscribe scope kind) tokens s)
    = (outbox k ++ List.map (fun t => symbol_request scope subscribe t kind) tokens)%list.
Proof.
  induction tokens as [| tok rest IH]; intros s id k Href Hk; simpl.
  - unfold sent_on. by rewrite Hk, app_nil_r.
  - rewrite (IH _ id (push_frame (symbol_request scope subscribe tok kind) k)).
    + simpl. by rewrite <- app_assoc.
    + unfold send_subscribe, transmit. rewrite Href. exact Href.
    + unfold send_subscribe, transmit. rewrite Href. simpl.
      by rewrite list_lookup_alter_eq, Hk.
Qed.

Lemma subscribeToken_sends s id k :
  is_open s = true → isLoggedIn s = true →
  wsRef s = Some id → sockets s !! id = Some k →
  sent_on id (subscribeToken s)
    = (outbox k ++ List.map (fun t => symbol_request (credentials s) subscribe t
                                        (streamingType s))
                     (parse_tokens (newToken s)))%list.
Proof.
  intros Hopen Hlogged Href Hk. unfold subscribeToken. rewrite Hopen, Hlogged. simpl.
  apply (send_subscribe_sends (credentials s) (streamingType s)
           (parse_tokens (newToken s)) s id k Href Hk).
Qed.

(** C8 (amended).  [sendLogin] looks at the transport only.  When the socket
    behind [wsRef.current] is open it sends the login request on it, whether
    or not [isLoggedIn] is already true; when there is no such socket or it
    is not open it only logs "Not connected", sends nothing and the render
    that follows writes nothing to the store.  In both cases everything but
    the sockets and the log stays as it was, so [isLoggedIn] is never set
    here.  Only the Login button checks the status: it can be pressed exactly
    when [wsStatus] is connected and [isLoggedIn] is false. *)
Theorem C8_login_checks_transport_only scope s :
  (is_open s = true →
     ∃ id k, wsRef s = Some id ∧ sockets s !! id = Some k ∧ readyState k = OPEN
       ∧ sent_on id (sendLogin scope s)
           = (outbox k ++ [session_request scope subscribe login])%list
       ∧ ∀ j, j ≠ id → sent_on j (sendLogin scope s) = sent_on j s)
  ∧ (is_open s = false →
       sendLogin scope s = addMessage msg_error (Text "Not connected") s
       ∧ sockets (sendLogin scope s) = sockets s
       ∧ effects s (sendLogin scope s) = sendLogin scope s)
  ∧ same_core s (sendLogin scope s)
  ∧ isLoggedIn (sendLogin scope s) = isLoggedIn s
  ∧ (enabled ClickLogin s = true ↔ wsStatus s = connected ∧ isLoggedIn s = false).
Proof.
  split; [| split; [| split; [apply sendLogin_core | split]]].
  - intros Hopen. destruct (is_open_socket s Hopen) as (id & k & Href & Hk & Hready).
    exists id, k. do 3 (split; [assumption |]).
    unfold sendLogin. rewrite Hopen. simpl.
    apply (transmit_sent_on _ s id k Href Hk).
  - intros Hclosed. unfold sendLogin. rewrite Hclosed. simpl.
    do 2 (split; [reflexivity |]).
    unfold effects; simpl. by rewrite !decide_True by done.
  - apply (sendLogin_core scope s).
  - simpl. rewrite andb_true_iff, bool_decide_eq_true, negb_true_iff. done.
Qed.

(** C9 (amended).  [connectWebSocket] has no guard: in every state, when the
    constructor does not throw, it creates one more socket, which starts
    connecting, and points [wsRef.current] at it; the sockets created before
    stay as they are (none is closed), and the status, the login state, the
    registry, the market data and the store are not touched.  Only the
    Connect button is gated: it is rendered exactly when [wsStatus] is
    disconnected. *)
Theorem C9_connect_opens_in_every_state scope s :
  let s' := connectWebSocket scope None s in
  sockets s' =
    (sockets s ++ [{| readyState := CONNECTING; outbox := []; captured := scope |}])%list
  ∧ length (sockets s') = S (length (sockets s))
  ∧ wsRef s' = Some (length (sockets s))
  ∧ (∀ j k, sockets s !! j = Some k → sockets s' !! j = Some k)
  ∧ wsStatus s' = wsStatus s ∧ isLoggedIn s' = isLoggedIn s
  ∧ subscribedTokens s' = subscribedTokens s ∧ marketData s' = marketData s
  ∧ localStorage s' = localStorage s
  ∧ effects s s' = s'
  ∧ (enabled (ClickConnect None) s = true ↔ wsStatus s = disconnected).
Proof.
  simpl. repeat split.
  - rewrite length_app. simpl. lia.
  - intros j k Hk. by apply lookup_app_l_Some.
  - unfold effects; simpl. by rewrite !decide_True by done.
  - by intros ?%bool_decide_eq_true.
  - intros Hstatus. by apply bool_decide_eq_true.
Qed.

(** C10.  A call [unsubscribeToken(token, kind)] made while the transport is
    open deletes the market record stored under [token], whatever [kind] is,
    and removes from the registry exactly the entries with that token and
    that kind: an entry of the same token under the other kind stays
    registered while its market record is gone. *)
Theorem C10_unsubscribe_deletes_record_by_token tok kind s :
  is_open s = true →
  let s' := unsubscribeToken tok kind s in
  marketData s' = delete tok (marketData s)
  ∧ marketData s' !! tok = None
  ∧ (∀ i, i ∈ subscribedTokens s' ↔
          i ∈ subscribedTokens s ∧ ¬ (token i = tok ∧ type i = kind))
  ∧ (∀ other, other ≠ kind →
       {| token := tok; type := other |} ∈ subscribedTokens s →
       {| token := tok; type := other |} ∈ subscribedTokens s'
       ∧ marketData s' !! token {| token := tok; type := other |} = None).
Proof.
  intros Hopen s'.
  assert (Hmarket : marketData s' = delete tok (marketData s)).
  { unfold s', unsubscribeToken. rewrite Hopen. simpl.
    by rewrite (proj1 (proj2 (proj2 (proj2 (proj2 (same_core_transmit _ s)))))). }
  assert (Hregistry : ∀ i, i ∈ subscribedTokens s' ↔
            i ∈ subscribedTokens s ∧ ¬ (token i = tok ∧ type i = kind)).
  { intros i. unfold s', unsubscribeToken. rewrite Hopen. simpl.
    rewrite (proj1 (proj2 (proj2 (same_core_transmit _ s)))).
    rewrite list_elem_of_In, filter_In, <- list_elem_of_In.
    rewrite negb_true_iff, andb_false_iff, !bool_decide_eq_false.
    split; intros [Hin Hne]; (split; [exact Hin |]).
    - intros [Htok Hkind]. by destruct Hne.
    - destruct (decide (token i = tok)) as [Htok | Htok]; [right | by left].
      intros Hkind. by apply Hne. }
  split; [exact Hmarket |].
  split; [rewrite Hmarket; apply lookup_delete_eq |].
  split; [exact Hregistry |].
  intros other Hother Hin. split.
  - apply Hregistry. split; [exact Hin |]. simpl. by intros [_ ?].
  - simpl. rewrite Hmarket. apply lookup_delete_eq.
Qed.

(** ** Further properties of the handlers *)

Lemma split_comma_nonempty s : split_comma s ≠ [].
Proof. destruct s as [| c r]; simpl; [done |]. destruct (Ascii.eqb c ","); [done |]. by destruct (split_comma r). Qed.

Lemma join_with_cons sep c p rest :
  join_with sep (String c p :: rest) = String c (join_with sep (p :: rest)).
Proof. by destruct rest. Qed.

(** X5.  Joining the pieces of [s.split(',')] with commas gives [s] back:
    splitting loses nothing of the input and adds nothing to it. *)
Theorem X5_split_join_round_trip s : join_with "," (split_comma s) = s.
Proof.
  induction s as [| c r IH]; simpl; [done |].
  destruct (Ascii.eqb c ",") eqn:Hc.
  - apply Ascii.eqb_eq in Hc as ->.
    pose proof (split_comma_nonempty r) as Hne.
    destruct (split_comma r) as [| p rest] eqn:Hsplit; [done |].
    simpl. simpl in IH. by rewrite IH.
  - pose proof (split_comma_nonempty r) as Hne.
    destruct (split_comma r) as [| p rest] eqn:Hsplit; [done |].
    rewrite join_with_cons. by rewrite IH.
Qed.

Lemma split_comma_no_comma s : ∀ piece, piece ∈ split_comma s → occurs "," piece = false.
Proof.
  induction s as [| c r IH]; simpl; intros piece Hin.
  - apply list_elem_of_singleton in Hin as ->. done.
  - destruct (Ascii.eqb c ",") eqn:Hc.
    + apply elem_of_cons in Hin as [-> | Hin]; [done | by apply IH].
    + destruct (split_comma r) as [| p rest] eqn:Hsplit.
      * apply list_elem_of_singleton in Hin as ->. simpl. by rewrite Hc.
      * apply elem_of_cons in Hin as [-> | Hin].
        -- simpl. rewrite Hc. simpl. apply IH. by left.
        -- apply IH. by right.
Qed.

Lemma occurs_trim_start c s : occurs c (trim_start s) = true → occurs c s = true.
Proof.
  induction s as [| d r IH]; simpl; [done |].
  destruct (is_space d); simpl; [| done].
  intros H. rewrite (IH H). apply orb_true_r.
Qed.

Lemma occurs_trim_end c s : occurs c (trim_end s) = true → occurs c s = true.
Proof.
  induction s as [| d r IH]; simpl; [done |].
  destruct (trim_end r) as [| e r'] eqn:Hr.
  - destruct (is_space d); simpl; [done |]. rewrite orb_false_r. intros ->. done.
  - simpl. simpl in IH. intros [-> | H]%orb_true_iff; [done |].
    rewrite (IH H). apply orb_true_r.
Qed.

Lemma trim_start_fixed c r : is_space c = false → trim_start (String c r) = String c r.
Proof. intros H. simpl. by rewrite H. Qed.

Lemma trim_start_head s c r : trim_start s = String c r → is_space c = false.
Proof.
  induction s as [| d t IH]; simpl; [done |].
  destruct (is_space d) eqn:Hd; [exact IH |]. by intros [= <- _].
Qed.

Lemma trim_end_head c r : trim_end (String c r) = EmptyString ∨ ∃ r', trim_end (String c r) = String c r'.
Proof.
  simpl. destruct (trim_end r); [destruct (is_space c) |]; eauto.
Qed.

Lemma trim_end_idempotent s : trim_end (trim_end s) = trim_end s.
Proof.
  induction s as [| c r IH]; simpl; [done |].
  destruct (trim_end r) as [| e r'] eqn:Hr.
  - destruct (is_space c) eqn:Hc; simpl; [done |]. by rewrite Hc.
  - simpl. simpl in IH. by rewrite IH.
Qed.

Lemma trim_idempotent s : trim (trim s) = trim s.
Proof.
  unfold trim.
  assert (Hfixed : trim_start (trim_end (trim_start s)) = trim_end (trim_start s)).
  { destruct (trim_start s) as [| c r] eqn:Hs; [done |].
    destruct (trim_end_head c r) as [-> | [r' ->]]; [done |].
    apply trim_start_fixed. by eapply trim_start_head. }
  rewrite Hfixed. apply trim_end_idempotent.
Qed.

Lemma parse_tokens_clean input t :
  t ∈ parse_tokens input →
  t ≠ EmptyString ∧ trim t = t ∧ occurs "," t = false.
Proof.
  unfold parse_tokens. intros Hin.
  apply list_elem_of_In, filter_In in Hin as [Hin Hne].
  apply in_map_iff in Hin as (piece & <- & Hpiece).
  apply list_elem_of_In in Hpiece.
  split; [| split].
  - intros Heq. rewrite Heq in Hne. done.
  - apply trim_idempotent.
  - pose proof (split_comma_no_comma input piece Hpiece) as Hno.
    destruct (occurs "," (trim piece)) eqn:Hocc; [| done].
    unfold trim in Hocc.
    apply occurs_trim_end, occurs_trim_start in Hocc. congruence.
Qed.

(** X6.  Every token that [subscribeToken] takes from the input is
    non-empty, has no whitespace left at either end ([trim] leaves it as it
    is) and contains no comma. *)
Theorem X6_parsed_tokens_clean input t :
  t ∈ parse_tokens input →
  t ≠ EmptyString ∧ trim t = t ∧ occurs "," t = false.
Proof. apply parse_tokens_clean. Qed.

Lemma list_ascii_of_string_app a b :
  list_ascii_of_string (a ++ b) = (list_ascii_of_string a ++ list_ascii_of_string b)%list.
Proof. induction a as [| c a IH]; simpl; [done |]. by rewrite IH. Qed.

Lemma list_ascii_of_string_inj a b :
  list_ascii_of_string a = list_ascii_of_string b → a = b.
Proof.
  intros H. rewrite <- (string_of_list_ascii_of_string a), <- (string_of_list_ascii_of_string b).
  by rewrite H.
Qed.

(** The key [`${token}-${type}`] determines the token and the type. *)
Lemma sub_key_inj i j : sub_key i = sub_key j → i = j.
Proof.
  destruct i as [ti ki], j as [tj kj]. unfold sub_key. simpl. intros Hkey.
  apply (f_equal list_ascii_of_string) in Hkey.
  rewrite !list_ascii_of_string_app in Hkey.
  assert (Hkind : ki = kj).
  { apply (f_equal (@last ascii)) in Hkey. rewrite !last_app in Hkey.
    destruct ki, kj; simpl in Hkey; done. }
  subst kj. apply app_inv_tail in Hkey. by rewrite (list_ascii_of_string_inj _ _ Hkey).
Qed.

(** ** The store mirrors the state *)

(** What the effects leave under the three keys. *)
Lemma effects_lookup before after :
  localStorage (effects before after) !! STORAGE_KEYS.credentials
    = (if decide (credentials before = credentials after)
       then localStorage after !! STORAGE_KEYS.credentials
       else Some (JSON_stringify_credentials (credentials after)))
  ∧ localStorage (effects before after) !! STORAGE_KEYS.subscriptions
    = (if decide (subscribedTokens_id before = subscribedTokens_id after)
       then localStorage after !! STORAGE_KEYS.subscriptions
       else Some (JSON_stringify_tokens (subscribedTokens after)))
  ∧ localStorage (effects before after) !! STORAGE_KEYS.wasLoggedIn
    = (if decide (isLoggedIn before = isLoggedIn after)
       then localStorage after !! STORAGE_KEYS.wasLoggedIn
       else Some (bool_text (isLoggedIn after))).
Proof.
  unfold effects, saveCredentials, saveSubscriptions, setItem, set_localStorage.
  split; [| split]; repeat case_decide; cbn [localStorage];
    rewrite ?lookup_insert; try reflexivity;
    repeat (case_decide; try discriminate); reflexivity.
Qed.

(** What a handler can do to the three keys, before the effects run: the
    credentials key is never touched; the subscriptions key is touched only
    together with [setSubscribedTokens]; the login flag is left alone or
    removed, and removed only where [isLoggedIn] is set to false. *)
Lemma handle_store_facts e s :
  let mid := outcome_state (handle e s) in
  localStorage mid !! STORAGE_KEYS.credentials
    = localStorage s !! STORAGE_KEYS.credentials
  ∧ (subscribedTokens_id mid = subscribedTokens_id s →
       subscribedTokens mid = subscribedTokens s
       ∧ localStorage mid !! STORAGE_KEYS.subscriptions
         = localStorage s !! STORAGE_KEYS.subscriptions)
  ∧ (localStorage mid !! STORAGE_KEYS.wasLoggedIn
       = localStorage s !! STORAGE_KEYS.wasLoggedIn
     ∨ (localStorage mid !! STORAGE_KEYS.wasLoggedIn = None
        ∧ isLoggedIn mid = false)).
Proof.
  assert (Hkept : ∀ mid,
    localStorage mid = localStorage s → subscribedTokens mid = subscribedTokens s →
    localStorage mid !! STORAGE_KEYS.credentials
      = localStorage s !! STORAGE_KEYS.credentials
    ∧ (subscribedTokens_id mid = subscribedTokens_id s →
         subscribedTokens mid = subscribedTokens s
         ∧ localStorage mid !! STORAGE_KEYS.subscriptions
           = localStorage s !! STORAGE_KEYS.subscriptions)
    ∧ (localStorage mid !! STORAGE_KEYS.wasLoggedIn
         = localStorage s !! STORAGE_KEYS.wasLoggedIn
       ∨ (localStorage mid !! STORAGE_KEYS.wasLoggedIn = None
          ∧ isLoggedIn mid = false))).
  { intros mid -> ->. repeat split. by left. }
  assert (Hquiet : ∀ mid, same_core s mid →
    localStorage mid !! STORAGE_KEYS.credentials
      = localStorage s !! STORAGE_KEYS.credentials
    ∧ (subscribedTokens_id mid = subscribedTokens_id s →
         subscribedTokens mid = subscribedTokens s
         ∧ localStorage mid !! STORAGE_KEYS.subscriptions
           = localStorage s !! STORAGE_KEYS.subscriptions)
    ∧ (localStorage mid !! STORAGE_KEYS.wasLoggedIn
         = localStorage s !! STORAGE_KEYS.wasLoggedIn
       ∨ (localStorage mid !! STORAGE_KEYS.wasLoggedIn = None
          ∧ isLoggedIn mid = false))).
  { intros mid Hcore. unfold same_core in Hcore. destruct_and!. by apply Hkept. }
  assert (Hcleared : ∀ mid,
    subscribedTokens_id mid = S (subscribedTokens_id s) →
    isLoggedIn mid = false →
    (localStorage mid = delete STORAGE_KEYS.wasLoggedIn
                          (delete STORAGE_KEYS.subscriptions (localStorage s))
     ∨ localStorage mid = delete STORAGE_KEYS.subscriptions
                            (delete STORAGE_KEYS.wasLoggedIn (localStorage s))) →
    localStorage mid !! STORAGE_KEYS.credentials
      = localStorage s !! STORAGE_KEYS.credentials
    ∧ (subscribedTokens_id mid = subscribedTokens_id s →
         subscribedTokens mid = subscribedTokens s
         ∧ localStorage mid !! STORAGE_KEYS.subscriptions
           = localStorage s !! STORAGE_KEYS.subscriptions)
    ∧ (localStorage mid !! STORAGE_KEYS.wasLoggedIn
         = localStorage s !! STORAGE_KEYS.wasLoggedIn
       ∨ (localStorage mid !! STORAGE_KEYS.wasLoggedIn = None
          ∧ isLoggedIn mid = false))).
  { intros mid Hid Hlogged Hstore. split; [| split].
    - destruct Hstore as [-> | ->]; by rewrite !lookup_delete_ne by done.
    - intros Hsame. lia.
    - right. split; [| exact Hlogged].
      destruct Hstore as [-> | ->].
      + apply lookup_delete_eq.
      + rewrite lookup_delete_ne by done. apply lookup_delete_eq. }
  assert (Hfresh : ∀ mid,
    subscribedTokens_id mid = S (subscribedTokens_id s) →
    localStorage mid = localStorage s →
    localStorage mid !! STORAGE_KEYS.credentials
      = localStorage s !! STORAGE_KEYS.credentials
    ∧ (subscribedTokens_id mid = subscribedTokens_id s →
         subscribedTokens mid = subscribedTokens s
         ∧ localStorage mid !! STORAGE_KEYS.subscriptions
           = localStorage s !! STORAGE_KEYS.subscriptions)
    ∧ (localStorage mid !! STORAGE_KEYS.wasLoggedIn
         = localStorage s !! STORAGE_KEYS.wasLoggedIn
       ∨ (localStorage mid !! STORAGE_KEYS.wasLoggedIn = None
          ∧ isLoggedIn mid = false))).
  { intros mid Hid ->. split; [done |]. split; [intros; lia | by left]. }
  destruct e; cbn [handle outcome_state]; cbv zeta.
  - destruct thrown; by apply Hkept.
  - destruct (disconnectWebSocket_fields s) as (_ & Hid & Hstore).
    apply Hcleared; [exact Hid | apply disconnectWebSocket_isLoggedIn | by left].
  - apply Hquiet, sendLogin_core.
  - unfold sendLogout. destruct (is_open s); [| apply Hquiet, same_core_refl].
    pose proof (same_core_transmit
                  (session_request (credentials s) unsubscribe logout) s) as Hcore.
    unfold same_core in Hcore. destruct_and!.
    apply Hcleared; simpl; [congruence | reflexivity | right; congruence].
  - unfold subscribeToken.
    destruct (negb (is_open s) || negb (isLoggedIn s));
      [apply Hquiet, same_core_addMessage |].
    pose proof (send_subscribe_core (credentials s) (streamingType s)
                  (parse_tokens (newToken s)) s) as Hcore.
    unfold same_core in Hcore. destruct_and!.
    apply Hfresh; simpl; congruence.
  - destruct (subscribedTokens s !! i) as [item |]; cbn [outcome_state];
      [| apply Hquiet, same_core_refl].
    unfold unsubscribeToken. destruct (is_open s); [| apply Hquiet, same_core_refl].
    pose proof (same_core_transmit
                  (symbol_request (credentials s) unsubscribe (token item) (type item)) s)
      as Hcore.
    unfold same_core in Hcore. destruct_and!.
    apply Hfresh; simpl; congruence.
  - by apply Hkept.
  - by apply Hkept.
  - by apply Hkept.
  - by apply Hkept.
  - apply Hkept; unfold onopen; by case_match.
  - pose proof (onmessage_fields (socket_scope id s) data parsed s) as Hfields.
    cbv zeta in Hfields. destruct_and!. by apply Hkept.
  - by apply Hkept.
  - by apply Hkept.
  - destruct (timers s) as [| closure rest]; cbn [outcome_state];
      [apply Hquiet, same_core_refl |].
    pose proof (sendLogin_core closure (set_timers rest s)) as Hcore.
    unfold same_core in Hcore. destruct_and!. by apply Hkept.
Qed.

Lemma effects_credentials before after :
  credentials (effects before after) = credentials after.
Proof. apply (effects_fields before after). Qed.

(** The effects restore the mirror after any render whose handler respected
    the three keys as above. *)
Lemma effects_mirrors before after :
  localStorage after !! STORAGE_KEYS.credentials
    = Some (JSON_stringify_credentials (credentials before)) →
  (subscribedTokens_id after = subscribedTokens_id before →
     localStorage after !! STORAGE_KEYS.subscriptions
       = Some (JSON_stringify_tokens (subscribedTokens after))) →
  (isLoggedIn after = isLoggedIn before →
     (localStorage after !! STORAGE_KEYS.wasLoggedIn = Some "true"
      ↔ isLoggedIn after = true)) →
  store_mirrors (effects before after).
Proof.
  intros Hcreds Hsubs Hflag.
  destruct (effects_lookup before after) as (Hc & Hs & Hf).
  unfold store_mirrors.
  rewrite Hc, Hs, Hf, effects_credentials, effects_subscribedTokens, effects_isLoggedIn.
  clear Hc Hs Hf. split; [| split].
  - case_decide as Heq; [by rewrite <- Heq | done].
  - case_decide as Heq; [by apply Hsubs | done].
  - case_decide as Heq; [by apply Hflag |].
    destruct (isLoggedIn after); simpl; split; done.
Qed.

Lemma step_store_mirrors e s s' :
  step e s = Some s' → store_mirrors s → store_mirrors s'.
Proof.
  intros (_ & mid & Hmid & ->)%step_outcome (Hcreds & Hsubs & Hflag).
  pose proof (handle_store_facts e s) as Hfacts. rewrite Hmid in Hfacts.
  cbv zeta in Hfacts. simpl in Hfacts. destruct Hfacts as (Hc & Hs & Hf).
  apply effects_mirrors.
  - by rewrite Hc.
  - intros Hid. destruct (Hs Hid) as [-> ->]. exact Hsubs.
  - intros Hlogged. destruct Hf as [-> | [-> Hfalse]].
    + by rewrite Hlogged.
    + by rewrite Hfalse.
Qed.

Lemma mount_store_mirrors creds tokens thrown store :
  store_mirrors (mount creds tokens thrown store).
Proof.
  unfold mount. apply effects_mirrors.
  - unfold saveSubscriptions, saveCredentials, setItem, set_localStorage.
    cbn [localStorage]. by rewrite !lookup_insert_ne, lookup_insert_eq by done.
  - unfold saveSubscriptions, saveCredentials, setItem, set_localStorage.
    cbn [localStorage subscribedTokens_id subscribedTokens].
    rewrite lookup_insert_ne, lookup_insert_eq by done.
    intros Hid. f_equal. f_equal.
    repeat case_match; simpl in *; try lia; try reflexivity;
      match goal with
      | |- context [connectWebSocket ?c ?t ?s] => destruct t; simpl in *; try lia; reflexivity
      | H : context [connectWebSocket ?c ?t ?s] |- _ => destruct t; simpl in *; lia
      end.
  - intros _. unfold saveSubscriptions, saveCredentials, setItem, set_localStorage.
    cbn [localStorage isLoggedIn]. rewrite lookup_insert_eq. simpl.
    split; [done |].
    repeat case_match; simpl; try done;
      match goal with
      | |- context [connectWebSocket ?c ?t ?s] => by destruct t
      end.
Qed.

Lemma reachable_store_mirrors creds tokens thrown store s :
  reachable (mount creds tokens thrown store) s → store_mirrors s.
Proof.
  induction 1 as [| s e s' _ IH Hstep]; [apply mount_store_mirrors |].
  by apply (step_store_mirrors e s s').
Qed.

(** X11.  From the mounted component on, the store mirrors the state after
    every event: the credentials key holds the serialised form credentials,
    the subscriptions key holds the serialised registry, and the login flag
    reads "true" exactly when [isLoggedIn] is true. *)
Theorem X11_store_mirrors_state creds tokens thrown store s :
  reachable (mount creds tokens thrown store) s → store_mirrors s.
Proof. apply reachable_store_mirrors. Qed.

(** ** [sendLogout], [onclose], frames that are only logged *)

(** What the body of [sendLogout] leaves when it finds the transport
    open. *)
Lemma sendLogout_fields scope s :
  is_open s = true →
  sockets (sendLogout scope s)
    = sockets (transmit (session_request scope unsubscribe logout) s)
  ∧ isLoggedIn (sendLogout scope s) = false
  ∧ subscribedTokens (sendLogout scope s) = []
  ∧ subscribedTokens_id (sendLogout scope s) = S (subscribedTokens_id s)
  ∧ pendingSubscriptionsRef (sendLogout scope s) = []
  ∧ marketData (sendLogout scope s) = ∅
  ∧ wsStatus (sendLogout scope s) = wsStatus s
  ∧ wsRef (sendLogout scope s) = wsRef s
  ∧ credentials (sendLogout scope s) = credentials s
  ∧ localStorage (sendLogout scope s)
    = delete STORAGE_KEYS.subscriptions
        (delete STORAGE_KEYS.wasLoggedIn (localStorage s)).
Proof.
  intros Hopen. unfold sendLogout. rewrite Hopen. simpl.
  unfold transmit. destruct (wsRef s) eqn:Href; simpl; split_and!; done.
Qed.

(** X1.  The Logout button can be pressed while [isLoggedIn] is true.
    Pressed while the transport behind the handle is open, it sends one
    logout request (an unsubscribe with streaming type logout and the
    credentials of the form) on that transport and keeps it open; it sets
    [isLoggedIn] to false, empties the registry, the replay list and the
    market data and leaves the status and the handle alone.  The two keys
    the handler removes from the store are written again by the saving
    effects of the same render: once the click is handled the subscriptions
    key holds the text of the empty list and the login flag reads "false";
    the credentials key is as before.  Pressed while the transport is not
    open, it changes nothing at all, the log and the store included. *)
Theorem X1_logout_resets_session s :
  isLoggedIn s = true →
  enabled ClickLogout s = true
  ∧ (is_open s = true →
       ∃ id k s', wsRef s = Some id ∧ sockets s !! id = Some k
         ∧ step ClickLogout s = Some s'
         ∧ sockets s' !! id
             = Some (push_frame (session_request (credentials s) unsubscribe logout) k)
         ∧ (∀ j, j ≠ id → sockets s' !! j = sockets s !! j)
         ∧ is_open s' = true
         ∧ isLoggedIn s' = false
         ∧ subscribedTokens s' = []
         ∧ pendingSubscriptionsRef s' = []
         ∧ marketData s' = ∅
         ∧ wsStatus s' = wsStatus s
         ∧ wsRef s' = wsRef s
         ∧ localStorage s' !! STORAGE_KEYS.subscriptions
           = Some (JSON_stringify_tokens [])
         ∧ localStorage s' !! STORAGE_KEYS.wasLoggedIn = Some "false"
         ∧ localStorage s' !! STORAGE_KEYS.credentials
           = localStorage s !! STORAGE_KEYS.credentials)
  ∧ (is_open s = false → step ClickLogout s = Some s).
Proof.
  intros Hlogged. split; [exact Hlogged |].
  unfold step. cbn [enabled handle]. rewrite Hlogged. split.
  - intros Hopen.
    destruct (is_open_socket s Hopen) as (id & k & Href & Hk & Hready).
    destruct (sendLogout_fields (credentials s) s Hopen)
      as (Hsockets & Hout & Hregistry & Hstamp & Hreplay & Hmarket & Hstatus
          & Hhandle & Hcreds & Hstore).
    destruct (effects_lookup s (sendLogout (credentials s) s))
      as (Hkc & Hks & Hkf).
    exists id, k, (effects s (sendLogout (credentials s) s)).
    do 3 (split; [done |]).
    assert (Hafter : sockets (effects s (sendLogout (credentials s) s))
                     = alter (push_frame
                                (session_request (credentials s) unsubscribe logout))
                         id (sockets s)).
    { rewrite effects_sockets, Hsockets. unfold transmit. by rewrite Href. }
    split_and!.
    + by rewrite Hafter, list_lookup_alter_eq, Hk.
    + intros j Hj. by rewrite Hafter, list_lookup_alter_ne.
    + unfold is_open, current_socket.
      rewrite effects_wsRef, Hhandle, Href, Hafter, list_lookup_alter_eq, Hk.
      simpl. by apply bool_decide_eq_true.
    + by rewrite effects_isLoggedIn.
    + by rewrite effects_subscribedTokens.
    + by rewrite effects_pendingSubscriptionsRef.
    + by rewrite effects_marketData.
    + by rewrite effects_wsStatus.
    + by rewrite effects_wsRef.
    + rewrite Hks, Hstamp, Hregistry. rewrite decide_False by lia. done.
    + rewrite Hkf, Hout, Hlogged. by rewrite decide_False by done.
    + rewrite Hkc, Hcreds, Hstore. rewrite decide_True by done.
      by rewrite !lookup_delete_ne by done.
  - intros Hclosed. unfold sendLogout. rewrite Hclosed. simpl.
    unfold effects. by rewrite !decide_True by done.
Qed.

(** X2.  When any socket the component created closes, whether or not it is
    the one behind the handle, the status becomes disconnected and
    [isLoggedIn] false; the registry, the replay list, the market data, the
    handle and the saved subscriptions are left as they were. *)
Theorem X2_close_keeps_subscriptions id s s' :
  step (WsClose id) s = Some s' →
  wsStatus s' = disconnected ∧ isLoggedIn s' = false
  ∧ subscribedTokens s' = subscribedTokens s
  ∧ pendingSubscriptionsRef s' = pendingSubscriptionsRef s
  ∧ marketData s' = marketData s
  ∧ wsRef s' = wsRef s
  ∧ socket_state id s' = Some CLOSED
  ∧ (∀ j, j ≠ id → sockets s' !! j = sockets s !! j)
  ∧ localStorage s' !! STORAGE_KEYS.subscriptions
    = localStorage s !! STORAGE_KEYS.subscriptions.
Proof.
  intros (Henabled & mid & [= <-] & ->)%step_outcome.
  destruct (effects_fields s
              (onclose (set_sockets (alter (set_readyState CLOSED) id (sockets s)) s)))
    as (Hcore & Hsockets & _).
  destruct (effects_lookup s
              (onclose (set_sockets (alter (set_readyState CLOSED) id (sockets s)) s)))
    as (_ & Hsubs & _).
  unfold same_core in Hcore. simpl in Hcore. destruct_and!.
  repeat split; try assumption.
  - unfold socket_state. rewrite Hsockets. simpl.
    rewrite list_lookup_alter_eq.
    simpl in Henabled. unfold socket_state in Henabled.
    by destruct (sockets s !! id).
  - intros j Hj. rewrite Hsockets. simpl. by rewrite list_lookup_alter_ne.
  - rewrite Hsubs. simpl. by rewrite decide_True by done.
Qed.

(** Frames that are neither a confirmation nor market data. *)
Lemma onmessage_only_logs scope data parsed s :
  (parsed = None
   ∨ ∃ p, parsed = Some p ∧ is_login_response p = false ∧ carries_symbol p = false) →
  ∃ s', onmessage scope data parsed s = Rendered s'
    ∧ same_core s s' ∧ sockets s' = sockets s
    ∧ messages s' = (messages s ++ received_entries data parsed)%list.
Proof.
  intros [-> | (p & -> & Hlogin & Hsymbol)].
  - eexists. split; [reflexivity |]. repeat split.
  - assert (Hcases : p = JNull ∨ p ≠ JNull) by (destruct p; (by left) || (by right)).
    destruct Hcases as [-> | Hp].
    + eexists. split; [reflexivity |]. repeat split. simpl.
      by rewrite <- app_assoc.
    + rewrite (onmessage_parsed _ _ _ _ Hp). cbv zeta. rewrite Hlogin.
      unfold store_market_data. unfold carries_symbol in Hsymbol.
      assert (Hentries : received_entries data (Some p)
                = [{| msg_type := msg_received; content := Pretty p |}])
        by (by destruct p).
      rewrite Hentries.
      destruct (market_info p) as [[marketInfo [symbol |]] |];
        [rewrite Hsymbol | |]; eexists; (split; [reflexivity |]); repeat split.
Qed.

(** X3.  A frame that cannot be parsed, the frame [null], and a frame that
    is neither a login confirmation nor carries a truthy symbol only reach
    the log: the unparsable frame as its raw text, the others pretty-printed
    ([null] is followed by its raw text too).  Sockets and everything else
    stay as they were. *)
Theorem X3_other_frames_only_logged scope data parsed s :
  (parsed = None
   ∨ ∃ p, parsed = Some p ∧ is_login_response p = false ∧ carries_symbol p = false) →
  ∃ s', onmessage scope data parsed s = Rendered s'
    ∧ same_core s s' ∧ sockets s' = sockets s
    ∧ messages s' = (messages s ++ received_entries data parsed)%list.
Proof. apply onmessage_only_logs. Qed.

(** X4.  The nested shape shadows the flat one: when [response.data] is
    truthy but holds no truthy [symbol], the frame stores nothing, even if
    it also has a symbol at top level, and whether or not it is a login
    confirmation as well. *)
Theorem X4_nested_data_shadows_flat_symbol scope data p d s :
  opt_get (get p "response") "data" = Some d → truthy d = true →
  truthy_opt (get d "symbol") = false →
  carries_symbol p = false
  ∧ ∃ s', onmessage scope data (Some p) s = Rendered s'
          ∧ marketData s' = marketData s.
Proof.
  intros Hdata Hd Hsym.
  assert (Hinfo : market_info p = Some (d, get d "symbol"))
    by (unfold market_info; by rewrite Hdata, Hd).
  assert (Hcarries : carries_symbol p = false).
  { unfold carries_symbol. rewrite Hinfo. by destruct (get d "symbol"). }
  split; [exact Hcarries |].
  assert (Hp : p ≠ JNull) by (intros ->; discriminate Hdata).
  rewrite (onmessage_parsed _ _ _ _ Hp). cbv zeta.
  set (s1 := addMessage msg_received (Pretty p) s).
  assert (Hlogged : ∀ c,
    c = (if is_login_response p then
           resubscribe scope (pendingSubscriptionsRef s1)
             (addMessage msg_success
                (Text "Login successful – auto-resubscribing tokens...")
                (setIsLoggedIn true s1))
         else Normal s1) →
    marketData (completion_state c) = marketData s).
  { intros c ->. destruct (is_login_response p); [| done].
    pose proof (resubscribe_core scope (pendingSubscriptionsRef s1)
                  (addMessage msg_success
                     (Text "Login successful – auto-resubscribing tokens...")
                     (setIsLoggedIn true s1))) as Hcore.
    unfold same_core in Hcore. by destruct_and!. }
  specialize (Hlogged _ eq_refl).
  destruct (if is_login_response p then _ else _) as [s2 | s2]; simpl in Hlogged.
  - exists s2. split; [| exact Hlogged].
    unfold store_market_data. rewrite Hinfo.
    destruct (get d "symbol") as [symbol |]; [| done].
    simpl in Hsym. by rewrite Hsym.
  - eexists. split; [reflexivity |]. exact Hlogged.
Qed.

(** ** [subscribeToken] and [unsubscribeToken] on the wire and in the registry *)

Lemma merge_subscriptions_elem prev newSubs i :
  i ∈ merge_subscriptions prev newSubs ↔ i ∈ prev ∨ i ∈ newSubs.
Proof.
  unfold merge_subscriptions. rewrite elem_of_app. split.
  - intros [Hin | Hin]; [by left | right].
    apply list_elem_of_In, filter_In in Hin as [Hin _]. by apply list_elem_of_In.
  - intros [Hin | Hin]; [by left |].
    destruct (decide (i ∈ prev)) as [Hprev | Hprev]; [by left | right].
    apply list_elem_of_In, filter_In. split; [by apply list_elem_of_In |].
    apply negb_true_iff, bool_decide_eq_false.
    intros Hkey. apply elem_of_list_to_set, list_elem_of_In, in_map_iff in Hkey
      as (j & Hj & Hjin).
    apply sub_key_inj in Hj as ->. by apply Hprev, list_elem_of_In.
Qed.

(** X7.  A subscribe issued while logged in over an open transport sends
    one subscribe request per token of the input, in input order and with the
    selected kind, keeps every entry the registry had, in place, and
    registers every requested (token, kind) pair; afterwards the replay list
    equals the registry and the input is cleared. *)
Theorem X7_subscribe_registers_every_token s id k :
  is_open s = true → isLoggedIn s = true →
  wsRef s = Some id → sockets s !! id = Some k →
  let s' := subscribeToken s in
  sent_on id s'
    = (outbox k ++ List.map (fun t => symbol_request (credentials s) subscribe t
                                        (streamingType s))
                     (parse_tokens (newToken s)))%list
  ∧ (∃ added, subscribedTokens s' = (subscribedTokens s ++ added)%list)
  ∧ (∀ i, i ∈ subscribedTokens s' ↔
          i ∈ subscribedTokens s
          ∨ (token i ∈ parse_tokens (newToken s) ∧ type i = streamingType s))
  ∧ pendingSubscriptionsRef s' = subscribedTokens s'
  ∧ newToken s' = EmptyString.
Proof.
  intros Hopen Hlogged Href Hk s'.
  split; [by apply subscribeToken_sends |].
  assert (Hregistry : subscribedTokens s' =
            merge_subscriptions (subscribedTokens s)
              (List.map (fun t => {| token := t; type := streamingType s |})
                 (parse_tokens (newToken s))))
    by (by apply subscribeToken_subscribedTokens).
  split; [rewrite Hregistry; unfold merge_subscriptions; eauto |].
  split.
  - intros i. rewrite Hregistry, merge_subscriptions_elem.
    split; (intros [Hin | Hin]; [by left | right]).
    + apply list_elem_of_In, in_map_iff in Hin as (t & <- & Ht).
      simpl. split; [by apply list_elem_of_In | done].
    + destruct Hin as [Ht Hkind]. apply list_elem_of_In, in_map_iff.
      exists (token i).
      split; [destruct i; simpl in *; by subst | by apply list_elem_of_In].
  - unfold s', subscribeToken. rewrite Hopen, Hlogged. simpl. done.
Qed.

(** X8.  The registry updater is idempotent: merging the same new entries a
    second time changes nothing. *)
Theorem X8_merge_idempotent prev newSubs :
  merge_subscriptions (merge_subscriptions prev newSubs) newSubs
    = merge_subscriptions prev newSubs.
Proof.
  apply merge_subscriptions_registered.
  intros i Hin. apply merge_subscriptions_elem. by right.
Qed.

(** X9.  A subscribe whose input yields no token (only commas and
    whitespace, which the Subscribe button does not rule out) sends nothing
    and leaves the contents of the registry as they were; it still clears the
    input. *)
Theorem X9_subscribe_without_tokens s :
  is_open s = true → isLoggedIn s = true → parse_tokens (newToken s) = [] →
  sockets (subscribeToken s) = sockets s
  ∧ messages (subscribeToken s) = messages s
  ∧ subscribedTokens (subscribeToken s) = subscribedTokens s
  ∧ pendingSubscriptionsRef (subscribeToken s) = subscribedTokens s
  ∧ marketData (subscribeToken s) = marketData s
  ∧ newToken (subscribeToken s) = EmptyString.
Proof.
  intros Hopen Hlogged Hnone. unfold subscribeToken.
  rewrite Hopen, Hlogged, Hnone. simpl.
  unfold merge_subscriptions. simpl. by rewrite app_nil_r.
Qed.

(** X10.  [unsubscribeToken] does not look at [isLoggedIn] or at the
    registry: over an open transport it sends exactly one unsubscribe request
    for the given token and kind, registered or not, leaves the login state
    alone and makes the replay list equal to the registry; over a transport
    that is not open it does nothing at all. *)
Theorem X10_unsubscribe_sends_one_request tok kind s :
  (is_open s = true →
     ∃ id k, wsRef s = Some id ∧ sockets s !! id = Some k
       ∧ sent_on id (unsubscribeToken tok kind s)
           = (outbox k ++ [symbol_request (credentials s) unsubscribe tok kind])%list
       ∧ (∀ j, j ≠ id → sent_on j (unsubscribeToken tok kind s) = sent_on j s)
       ∧ isLoggedIn (unsubscribeToken tok kind s) = isLoggedIn s
       ∧ pendingSubscriptionsRef (unsubscribeToken tok kind s)
           = subscribedTokens (unsubscribeToken tok kind s))
  ∧ (is_open s = false → unsubscribeToken tok kind s = s).
Proof.
  split; [| intros Hclosed; unfold unsubscribeToken; by rewrite Hclosed].
  intros Hopen. destruct (is_open_socket s Hopen) as (id & k & Href & Hk & _).
  exists id, k. do 2 (split; [assumption |]).
  unfold unsubscribeToken. rewrite Hopen. simpl.
  destruct (transmit_sent_on (symbol_request (credentials s) unsubscribe tok kind)
              s id k Href Hk) as [Hsent Hother].
  split; [exact Hsent |]. split; [exact Hother |].
  split; [apply (same_core_transmit _ s) | reflexivity].
Qed.

(** ** Mount and the delayed login *)

Lemma mount_fields creds tokens thrown store :
  let m := mount creds tokens thrown store in
  let defaults := credentials (initial store) in
  wsStatus m = disconnected ∧ isLoggedIn m = false ∧ marketData m = ∅
  ∧ timers m = []
  ∧ credentials m =
      (if present (store !! STORAGE_KEYS.credentials)
       then default defaults creds else defaults)
  ∧ subscribedTokens m =
      (if present (store !! STORAGE_KEYS.subscriptions)
       then default [] tokens else [])
  ∧ pendingSubscriptionsRef m = subscribedTokens m
  ∧ sockets m =
      (if auto_connects store then
         match thrown with
         | None => [{| readyState := CONNECTING; outbox := []; captured := defaults |}]
         | Some _ => []
         end
       else [])
  ∧ wsRef m =
      (if auto_connects store then
         match thrown with None => Some 0 | Some _ => None end
       else None)
  ∧ localStorage m !! STORAGE_KEYS.wasLoggedIn = Some "false".
Proof.
  cbv zeta. unfold mount, auto_connects, getItem. cbn [localStorage initial].
  rewrite effects_wsStatus, effects_isLoggedIn, effects_marketData, effects_timers,
    effects_credentials, effects_subscribedTokens, effects_pendingSubscriptionsRef,
    effects_sockets, effects_wsRef.
  match goal with |- context [localStorage (effects ?b ?a) !! _] =>
    destruct (effects_lookup b a) as (_ & _ & ->) end.
  destruct (present (store !! STORAGE_KEYS.credentials)),
    (present (store !! STORAGE_KEYS.subscriptions)),
    (bool_decide (store !! STORAGE_KEYS.wasLoggedIn = Some "true")),
    creds, tokens, thrown; simpl; split_and!; try reflexivity;
    unfold setItem, saveSubscriptions, saveCredentials, setItem, set_localStorage;
    cbn [localStorage]; by rewrite lookup_insert_eq.
Qed.

(** X12.  The mount effects, for saved texts that are unparsable or parse
    to a value of the declared type ([SavedCredentials] for the credentials,
    [SubscribedToken[]] for the subscriptions); a text that parses to a
    value of another shape is not covered.  Afterwards the component is
    disconnected and logged out with no market data and no timer.  Saved
    credentials, and saved subscriptions, are taken over when their key holds
    a non-empty text that parses to such a value, and ignored (the defaults,
    the empty registry stay) when the key is absent or empty or [JSON.parse]
    throws.  The replay list equals the registry.  [connectWebSocket] is
    called exactly when the flag was "true" and both other keys held a
    non-empty text, whether or not those texts parse; unless the constructor
    throws, it opens one socket, whose handlers close over the default
    credentials of the first render, not the restored ones.  The login flag
    in the store reads "false". *)
Theorem X12_mount_restores_and_connects creds tokens thrown store :
  let m := mount creds tokens thrown store in
  let defaults := credentials (initial store) in
  wsStatus m = disconnected ∧ isLoggedIn m = false ∧ marketData m = ∅
  ∧ timers m = []
  ∧ credentials m =
      (if present (store !! STORAGE_KEYS.credentials)
       then default defaults creds else defaults)
  ∧ subscribedTokens m =
      (if present (store !! STORAGE_KEYS.subscriptions)
       then default [] tokens else [])
  ∧ pendingSubscriptionsRef m = subscribedTokens m
  ∧ sockets m =
      (if auto_connects store then
         match thrown with
         | None => [{| readyState := CONNECTING; outbox := []; captured := defaults |}]
         | Some _ => []
         end
       else [])
  ∧ localStorage m !! STORAGE_KEYS.wasLoggedIn = Some "false".
Proof.
  pose proof (mount_fields creds tokens thrown store) as Hfields.
  cbv zeta in *. destruct_and!. split_and!; assumption.
Qed.

Lemma is_open_lookup s id k :
  wsRef s = Some id → sockets s !! id = Some k → readyState k = OPEN →
  is_open s = true.
Proof.
  intros Href Hk Hready. unfold is_open, current_socket.
  rewrite Href, Hk. by apply bool_decide_eq_true.
Qed.

Lemma step_WsOpen_fields id s s1 :
  step (WsOpen id) s = Some s1 →
  socket_state id s = Some CONNECTING
  ∧ sockets s1 = alter (set_readyState OPEN) id (sockets s)
  ∧ wsRef s1 = wsRef s
  ∧ (timers s1 = timers s ∨ timers s1 = (timers s ++ [socket_scope id s])%list).
Proof.
  intros (Henabled & mid & [= <-] & ->)%step_outcome.
  split; [by apply bool_decide_eq_true in Henabled |].
  rewrite effects_sockets, effects_wsRef, effects_timers.
  unfold onopen. case_match; simpl; auto.
Qed.

Lemma step_Timeout_fields s1 s2 :
  step Timeout s1 = Some s2 →
  ∃ closure rest, timers s1 = closure :: rest
    ∧ sockets s2 = sockets (sendLogin closure (set_timers rest s1)).
Proof.
  intros (Henabled & mid & Hmid & ->)%step_outcome.
  cbn [handle] in Hmid. cbn [enabled] in Henabled.
  destruct (timers s1) as [| closure rest]; [done |].
  injection Hmid as <-. exists closure, rest. by rewrite effects_sockets.
Qed.

(** X18.  When the component connected by itself at mount, the transport
    opens and the delayed login fires, the one frame sent is a login request
    with the default credentials of the first render, whatever credentials
    were restored from the store. *)
Theorem X18_auto_login_uses_first_render_credentials creds tokens store s' :
  run [WsOpen 0; Timeout] (mount creds tokens None store) = Some s' →
  sent_on 0 s' = [session_request (credentials (initial store)) subscribe login].
Proof.
  pose proof (mount_fields creds tokens None store) as Hfields.
  cbv zeta in Hfields.
  destruct Hfields as (_ & _ & _ & Htimers & _ & _ & _ & Hsockets & Href & _).
  generalize dependent (mount creds tokens None store). intros m Htimers Hsockets Href.
  cbn [run].
  destruct (step (WsOpen 0) m) as [s1 |] eqn:Hopen; [| done].
  destruct (step Timeout s1) as [s2 |] eqn:Hfire; [| done].
  intros [= <-].
  apply step_WsOpen_fields in Hopen as (Hstate & Hsockets1 & Href1 & Htimers1).
  apply step_Timeout_fields in Hfire as (closure & rest & Hdue & Hsockets2).
  unfold socket_state in Hstate.
  destruct (auto_connects store); [| by rewrite Hsockets in Hstate].
  assert (Hclosure : closure = credentials (initial store)).
  { unfold socket_scope in Htimers1. rewrite Htimers, Hsockets in Htimers1.
    destruct Htimers1 as [Hnone | Hone]; rewrite Hdue in *; [done |].
    by injection Hone as -> _. }
  subst closure.
  set (k := {| readyState := OPEN; outbox := [];
               captured := credentials (initial store) |}).
  assert (Hk : sockets s1 !! 0 = Some k) by (by rewrite Hsockets1, Hsockets).
  assert (Hhandle : wsRef s1 = Some 0) by congruence.
  unfold sent_on at 1. rewrite Hsockets2.
  unfold sendLogin.
  rewrite (is_open_lookup (set_timers rest s1) 0 k Hhandle Hk eq_refl).
  cbn [negb].
  apply (transmit_sent_on _ (set_timers rest s1) 0 k Hhandle Hk).
Qed.

(** ** [disconnectWebSocket] *)

(** X16.  [disconnectWebSocket] leaves the status to the close event and
    does not cancel a delayed login: the status and the timers stay, the
    handle becomes [null], the socket that was behind it starts closing when
    it was connecting or open, and no other socket is touched.  Until the
    next connect every command finds no transport: logout and unsubscribe do
    nothing, login and subscribe send nothing. *)
Theorem X16_disconnect_drops_handle_only scope tok kind s :
  let s' := disconnectWebSocket s in
  wsStatus s' = wsStatus s ∧ timers s' = timers s
  ∧ wsRef s' = None ∧ is_open s' = false
  ∧ (∀ j, sockets s' !! j
          = if decide (wsRef s = Some j) then close_socket <$> sockets s !! j
            else sockets s !! j)
  ∧ sendLogout scope s' = s'
  ∧ unsubscribeToken tok kind s' = s'
  ∧ sockets (sendLogin scope s') = sockets s'
  ∧ sockets (subscribeToken s') = sockets s'
  ∧ subscribedTokens (subscribeToken s') = [].
Proof.
  cbv zeta.
  assert (Hstatus : wsStatus (disconnectWebSocket s) = wsStatus s)
    by (unfold disconnectWebSocket; by destruct (wsRef s)).
  assert (Htimers : timers (disconnectWebSocket s) = timers s)
    by (unfold disconnectWebSocket; by destruct (wsRef s)).
  assert (Hhandle : wsRef (disconnectWebSocket s) = None) by reflexivity.
  assert (Hregistry : subscribedTokens (disconnectWebSocket s) = []) by reflexivity.
  assert (Hsockets : ∀ j, sockets (disconnectWebSocket s) !! j
            = if decide (wsRef s = Some j) then close_socket <$> sockets s !! j
              else sockets s !! j).
  { intros j. unfold disconnectWebSocket.
    destruct (wsRef s) as [i |] eqn:Href; cbn [sockets set_sockets set_wsRef
      setIsLoggedIn setSubscribedTokens setMarketData set_pendingSubscriptionsRef
      removeItem set_localStorage].
    - case_decide as Hj.
      + injection Hj as <-. apply list_lookup_alter_eq.
      + apply list_lookup_alter_ne. congruence.
    - by rewrite decide_False by done. }
  generalize dependent (disconnectWebSocket s).
  intros s' Hstatus Htimers Hhandle Hregistry Hsockets.
  assert (Hclosed : is_open s' = false)
    by (unfold is_open, current_socket; by rewrite Hhandle).
  split_and!; try assumption.
  - unfold sendLogout. by rewrite Hclosed.
  - unfold unsubscribeToken. by rewrite Hclosed.
  - unfold sendLogin. by rewrite Hclosed.
  - unfold subscribeToken. by rewrite Hclosed.
  - unfold subscribeToken. by rewrite Hclosed.
Qed.

(** ** What each event does to the registry *)

Lemma onmessage_form scope data parsed s :
  let s' := outcome_state (onmessage scope data parsed s) in
  newToken s' = newToken s ∧ streamingType s' = streamingType s.
Proof.
  destruct parsed as [p |]; [| repeat split].
  assert (Hcases : p = JNull ∨ p ≠ JNull) by (destruct p; (by left) || (by right)).
  destruct Hcases as [-> | Hp]; [repeat split |].
  rewrite (onmessage_parsed _ _ _ _ Hp). cbv zeta.
  set (s1 := addMessage msg_received (Pretty p) s).
  assert (Hlogged : ∀ c,
    c = (if is_login_response p then
           resubscribe scope (pendingSubscriptionsRef s1)
             (addMessage msg_success
                (Text "Login successful – auto-resubscribing tokens...")
                (setIsLoggedIn true s1))
         else Normal s1) →
    newToken (completion_state c) = newToken s
    ∧ streamingType (completion_state c) = streamingType s).
  { intros c ->. destruct (is_login_response p); [| done].
    pose proof (resubscribe_core scope (pendingSubscriptionsRef s1)
                  (addMessage msg_success
                     (Text "Login successful – auto-resubscribing tokens...")
                     (setIsLoggedIn true s1))) as Hcore.
    unfold same_core in Hcore. destruct_and!. split; assumption. }
  specialize (Hlogged _ eq_refl).
  destruct (if is_login_response p then _ else _) as [s2 | s2]; simpl in Hlogged;
    [| exact Hlogged].
  unfold store_market_data.
  destruct (market_info p) as [[marketInfo [symbol |]] |]; simpl; try exact Hlogged.
  destruct (truthy symbol); [destruct (to_property_key symbol) |]; exact Hlogged.
Qed.

Lemma handle_registry e s :
  subscribedTokens (outcome_state (handle e s)) =
    match e with
    | ClickDisconnect => []
    | ClickLogout => if is_open s then [] else subscribedTokens s
    | ClickSubscribe => subscribedTokens (subscribeToken s)
    | ClickUnsubscribe i =>
        match subscribedTokens s !! i with
        | Some item => subscribedTokens (unsubscribeToken (token item) (type item) s)
        | None => subscribedTokens s
        end
    | _ => subscribedTokens s
    end.
Proof.
  destruct e; simpl; try reflexivity.
  - by destruct thrown.
  - apply (sendLogin_core _ s).
  - unfold sendLogout. by destruct (is_open s).
  - by destruct (subscribedTokens s !! i).
  - unfold onopen. by case_match.
  - pose proof (onmessage_fields (socket_scope id s) data parsed s) as Hfields.
    cbv zeta in Hfields. by destruct_and!.
  - destruct (timers s) as [| closure rest]; simpl; [done |].
    apply (sendLogin_core closure (set_timers rest s)).
Qed.

Lemma handle_streamingType e s :
  streamingType (outcome_state (handle e s)) =
    match e with
    | ChangeStreamingType kind => kind
    | _ => streamingType s
    end.
Proof.
  destruct e; simpl; try reflexivity.
  - by destruct thrown.
  - by destruct (wsRef s).
  - apply (sendLogin_core _ s).
  - unfold sendLogout. destruct (is_open s); simpl; [| done].
    apply (same_core_transmit _ s).
  - unfold subscribeToken.
    destruct (negb (is_open s) || negb (isLoggedIn s)); simpl; [done |].
    apply (send_subscribe_core (credentials s) (streamingType s)
             (parse_tokens (newToken s)) s).
  - destruct (subscribedTokens s !! i); simpl; [| done].
    unfold unsubscribeToken. destruct (is_open s); simpl; [| done].
    apply (same_core_transmit _ s).
  - unfold onopen. by case_match.
  - apply (onmessage_form (socket_scope id s) data parsed s).
  - destruct (timers s) as [| closure rest]; simpl; [done |].
    apply (sendLogin_core closure (set_timers rest s)).
Qed.

Lemma subscribeToken_elem s i :
  i ∈ subscribedTokens (subscribeToken s) →
  i ∈ subscribedTokens s
  ∨ (token i ∈ parse_tokens (newToken s) ∧ type i = streamingType s).
Proof.
  destruct (is_open s) eqn:Hopen; [destruct (isLoggedIn s) eqn:Hlogged |].
  - rewrite subscribeToken_subscribedTokens by done.
    rewrite merge_subscriptions_elem. intros [Hin | Hin]; [by left | right].
    apply list_elem_of_In, in_map_iff in Hin as (t & <- & Ht).
    simpl. split; [by apply list_elem_of_In | done].
  - unfold subscribeToken. rewrite Hopen, Hlogged. simpl. by left.
  - unfold subscribeToken. rewrite Hopen. simpl. by left.
Qed.

Lemma unsubscribeToken_elem tok kind s i :
  i ∈ subscribedTokens (unsubscribeToken tok kind s) → i ∈ subscribedTokens s.
Proof.
  unfold unsubscribeToken. destruct (is_open s); simpl; [| done].
  intros Hin. apply list_elem_of_In, filter_In in Hin as [Hin _].
  apply list_elem_of_In in Hin.
  by rewrite (proj1 (proj2 (proj2 (same_core_transmit _ s)))) in Hin.
Qed.

Lemma step_registry_ok e s s' : step e s = Some s' → registry_ok s → registry_ok s'.
Proof.
  intros (Henabled & mid & Hmid & ->)%step_outcome [Hkind Hentries].
  pose proof (handle_registry e s) as Hregistry.
  pose proof (handle_streamingType e s) as Hselected.
  rewrite Hmid in Hregistry, Hselected. simpl in Hregistry, Hselected.
  unfold registry_ok.
  assert (Hform : streamingType (effects s mid) = streamingType mid)
    by apply (effects_fields s mid).
  rewrite effects_subscribedTokens, Hform, Hregistry, Hselected.
  split.
  - destruct e; try exact Hkind. simpl in Henabled.
    apply orb_true_iff in Henabled as [?%bool_decide_eq_true | ?%bool_decide_eq_true];
      [by left | by right].
  - intros i Hin. destruct e; try (by apply Hentries); try (by apply elem_of_nil in Hin).
    + destruct (is_open s); [by apply elem_of_nil in Hin | by apply Hentries].
    + apply subscribeToken_elem in Hin as [Hin | [Htoken ->]]; [by apply Hentries |].
      split; [exact Hkind |]. by apply (parse_tokens_clean (newToken s)).
    + destruct (subscribedTokens s !! i0) as [item |]; [| by apply Hentries].
      apply Hentries. by apply (unsubscribeToken_elem (token item) (type item) s).
Qed.

(** X17.  The registry only ever holds the two stream kinds the select
    offers, never login or logout, and only tokens that are non-empty, trimmed
    and free of commas: from any state in which that is so (the first render;
    a mount that restores such entries) it stays so after every event. *)
Theorem X17_registry_entries_well_formed s0 s :
  reachable s0 s → registry_ok s0 → registry_ok s.
Proof.
  induction 1 as [| s e s' _ IH Hstep]; [done |].
  intros Hstart. by apply (step_registry_ok e s s'), IH.
Qed.

(** X15.  No event but a subscribe introduces a duplicate into the
    registry, and a subscribe introduces one only when its input names the
    same token twice: a registry without duplicates stays without duplicates
    across every other event. *)
Theorem X15_registry_stays_duplicate_free e s s' :
  step e s = Some s' → NoDup (subscribedTokens s) →
  (e = ClickSubscribe → NoDup (parse_tokens (newToken s))) →
  NoDup (subscribedTokens s').
Proof.
  intros (_ & mid & Hmid & ->)%step_outcome Hprev Hinput.
  pose proof (handle_registry e s) as Hregistry.
  rewrite Hmid in Hregistry. simpl in Hregistry.
  rewrite effects_subscribedTokens, Hregistry.
  destruct e; try exact Hprev; try constructor.
  - destruct (is_open s); [constructor | exact Hprev].
  - apply subscribeToken_NoDup; [exact Hprev | by apply Hinput].
  - destruct (subscribedTokens s !! i); [| exact Hprev].
    by apply unsubscribeToken_NoDup.
Qed.

(** ** The market-data store *)

Lemma market_info_symbol p marketInfo symbol :
  market_info p = Some (marketInfo, Some symbol) → get marketInfo "symbol" = Some symbol.
Proof.
  unfold market_info.
  destruct (opt_get (get p "response") "data") as [d |].
  - destruct (truthy d).
    + by intros [= <- ->].
    + destruct (truthy_opt (get p "symbol")); [| done]. by intros [= <- ->].
  - destruct (truthy_opt (get p "symbol")); [| done]. by intros [= <- ->].
Qed.

Lemma normalize_record_ok symbol marketInfo key :
  get marketInfo "symbol" = Some symbol → truthy symbol = true →
  to_property_key symbol = Some key →
  record_ok key (normalize symbol marketInfo).
Proof.
  intros Hsymbol Htruthy Hkey. split.
  - exists symbol. split; [by apply normalize_present | done].
  - intros field Hfield. rewrite normalize_lookup.
    destruct (get marketInfo field); [eauto |].
    unfold canonical_fields in Hfield.
    repeat (apply elem_of_cons in Hfield as [-> | Hfield]; [eexists; reflexivity |]).
    by apply elem_of_nil in Hfield.
Qed.

Lemma store_market_data_records p s mid :
  store_market_data p s = Rendered mid → records_ok s → records_ok mid.
Proof.
  unfold store_market_data. intros Hstore Hok.
  destruct (market_info p) as [[marketInfo [symbol |]] |] eqn:Hinfo;
    try (injection Hstore as <-; exact Hok).
  destruct (truthy symbol) eqn:Htruthy; [| injection Hstore as <-; exact Hok].
  destruct (to_property_key symbol) as [key |] eqn:Hkey; [| done].
  injection Hstore as <-. intros k record. simpl.
  destruct (decide (key = k)) as [<- | Hne].
  - rewrite lookup_insert_eq. intros [= <-].
    apply normalize_record_ok; [by eapply market_info_symbol | done | done].
  - rewrite lookup_insert_ne by done. apply Hok.
Qed.

Lemma onmessage_records scope data parsed s mid :
  onmessage scope data parsed s = Rendered mid → records_ok s → records_ok mid.
Proof.
  intros Hrun Hok. destruct parsed as [p |]; [| injection Hrun as <-; exact Hok].
  assert (Hcases : p = JNull ∨ p ≠ JNull) by (destruct p; (by left) || (by right)).
  destruct Hcases as [-> | Hp]; [injection Hrun as <-; exact Hok |].
  rewrite (onmessage_parsed _ _ _ _ Hp) in Hrun. cbv zeta in Hrun.
  set (s1 := addMessage msg_received (Pretty p) s) in Hrun.
  assert (Hlogged : ∀ c,
    c = (if is_login_response p then
           resubscribe scope (pendingSubscriptionsRef s1)
             (addMessage msg_success
                (Text "Login successful – auto-resubscribing tokens...")
                (setIsLoggedIn true s1))
         else Normal s1) →
    marketData (completion_state c) = marketData s).
  { intros c ->. destruct (is_login_response p); [| done].
    pose proof (resubscribe_core scope (pendingSubscriptionsRef s1)
                  (addMessage msg_success
                     (Text "Login successful – auto-resubscribing tokens...")
                     (setIsLoggedIn true s1))) as Hcore.
    unfold same_core in Hcore. by destruct_and!. }
  specialize (Hlogged _ eq_refl).
  destruct (if is_login_response p then _ else _) as [s2 | s2]; simpl in Hlogged.
  - apply (store_market_data_records p s2 mid Hrun).
    unfold records_ok. by rewrite Hlogged.
  - injection Hrun as <-. unfold records_ok. simpl. by rewrite Hlogged.
Qed.

Lemma step_records_ok e s s' : step e s = Some s' → records_ok s → records_ok s'.
Proof.
  intros (_ & mid & Hmid & ->)%step_outcome Hok.
  unfold records_ok. rewrite effects_marketData.
  destruct e; simpl in Hmid; try (injection Hmid as <-; exact Hok).
  - injection Hmid as <-. by destruct thrown.
  - injection Hmid as <-. intros key record.
    assert (marketData (disconnectWebSocket s) = ∅) as -> by reflexivity.
    by rewrite lookup_empty.
  - injection Hmid as <-.
    by rewrite (proj1 (proj2 (proj2 (proj2 (proj2 (sendLogin_core _ s)))))).
  - injection Hmid as <-. unfold sendLogout. destruct (is_open s); [| exact Hok].
    intros key record. simpl. by rewrite lookup_empty.
  - injection Hmid as <-. unfold subscribeToken.
    destruct (negb (is_open s) || negb (isLoggedIn s)); simpl; [exact Hok |].
    by rewrite (proj1 (proj2 (proj2 (proj2 (proj2
         (send_subscribe_core (credentials s) (streamingType s)
            (parse_tokens (newToken s)) s)))))).
  - destruct (subscribedTokens s !! i) as [item |]; injection Hmid as <-;
      [| exact Hok].
    unfold unsubscribeToken. destruct (is_open s); [| exact Hok].
    intros key record. simpl.
    rewrite (proj1 (proj2 (proj2 (proj2 (proj2 (same_core_transmit _ s)))))).
    intros [_ Hin]%lookup_delete_Some. by apply Hok.
  - injection Hmid as <-. unfold onopen. by case_match.
  - by apply (onmessage_records (socket_scope id s) data parsed s).
  - destruct (timers s) as [| closure rest]; injection Hmid as <-; [exact Hok |].
    by rewrite (proj1 (proj2 (proj2 (proj2 (proj2
         (sendLogin_core closure (set_timers rest s))))))).
Qed.

(** X13.  From the mounted component on, every record in the market-data
    store carries a truthy [symbol] member whose property key is the key the
    record is stored under, and carries all nine canonical members (the ones
    the frame lacked as [null]). *)
Theorem X13_stored_records_well_formed creds tokens thrown store s :
  reachable (mount creds tokens thrown store) s → records_ok s.
Proof.
  induction 1 as [| s e s' _ IH Hstep].
  - intros key record.
    rewrite (proj1 (proj2 (proj2 (mount_fields creds tokens thrown store)))).
    by rewrite lookup_empty.
  - by apply (step_records_ok e s s').
Qed.

(** ** What is sent, and where *)

Lemma appends_same s s' :
  sockets s' = sockets s → wsRef s' = wsRef s → appends s s'.
Proof.
  intros Hsockets Href. split; [exact Href |]. intros j.
  unfold socket_state, sent_on. rewrite Hsockets. split; [done |].
  exists []. by rewrite app_nil_r.
Qed.

Lemma appends_refl s : appends s s.
Proof. by apply appends_same. Qed.

Lemma appends_trans s1 s2 s3 : appends s1 s2 → appends s2 s3 → appends s1 s3.
Proof.
  intros [Href12 H12] [Href23 H23]. split; [congruence |]. intros j.
  destruct (H12 j) as (Hstate12 & new12 & Hsent12 & Hwhere12).
  destruct (H23 j) as (Hstate23 & new23 & Hsent23 & Hwhere23).
  split; [congruence |]. exists (new12 ++ new23)%list.
  split; [by rewrite Hsent23, Hsent12, app_assoc |].
  intros Hnew. destruct new12 as [| r rest]; [| by apply Hwhere12].
  simpl in Hnew. rewrite <- Href12, <- Hstate12. by apply Hwhere23.
Qed.

Lemma is_open_state s :
  is_open s = true ↔ ∃ j, wsRef s = Some j ∧ socket_state j s = Some OPEN.
Proof.
  unfold is_open, current_socket, socket_state. split.
  - destruct (wsRef s) as [j |]; [| done].
    destruct (sockets s !! j) as [k |] eqn:Hk; [| done].
    intros Hopen%bool_decide_eq_true. exists j. by rewrite Hk, <- Hopen.
  - intros (j & -> & Hstate).
    destruct (sockets s !! j) as [k |]; [| done].
    injection Hstate as Hstate. by apply bool_decide_eq_true.
Qed.

Lemma appends_is_open s s' : appends s s' → is_open s' = is_open s.
Proof.
  intros [Href Hall].
  destruct (is_open s) eqn:Hopen.
  - apply is_open_state in Hopen as (j & Hj & Hstate). apply is_open_state.
    exists j. by rewrite Href, (proj1 (Hall j)).
  - destruct (is_open s') eqn:Hopen'; [| done].
    apply is_open_state in Hopen' as (j & Hj & Hstate).
    rewrite <- Hopen. symmetry. apply is_open_state.
    exists j. by rewrite <- Href, <- (proj1 (Hall j)).
Qed.

Lemma appends_transmit r s : is_open s = true → appends s (transmit r s).
Proof.
  intros Hopen. destruct (is_open_socket s Hopen) as (id & k & Href & Hk & Hready).
  split; [unfold transmit; by rewrite Href |]. intros j.
  unfold socket_state, sent_on, transmit. rewrite Href. simpl.
  destruct (decide (j = id)) as [-> | Hj].
  - rewrite list_lookup_alter_eq, Hk. simpl. split; [done |].
    exists [r]. split; [done |]. intros _. by rewrite Hready.
  - rewrite list_lookup_alter_ne by done. split; [done |].
    exists []. by rewrite app_nil_r.
Qed.

Lemma appends_addMessage t c s : appends s (addMessage t c s).
Proof. by apply appends_same. Qed.

Lemma ws_send_appends r s : appends s (completion_state (ws_send r s)).
Proof.
  unfold ws_send.
  destruct (current_socket s) as [k |] eqn:Hcurrent; [| apply appends_refl].
  destruct (readyState k) eqn:Hready; simpl; try apply appends_refl.
  apply appends_transmit. unfold is_open. rewrite Hcurrent.
  by apply bool_decide_eq_true.
Qed.

Lemma resubscribe_appends scope subs : ∀ s,
  appends s (completion_state (resubscribe scope subs s)).
Proof.
  induction subs as [| sub rest IH]; intros s; simpl; [apply appends_refl |].
  pose proof (ws_send_appends (symbol_request scope subscribe (token sub) (type sub)) s)
    as Hsend.
  destruct (ws_send _ s) as [s1 | s1]; simpl in *; [| exact Hsend].
  eapply appends_trans; [exact Hsend |].
  eapply appends_trans; [apply appends_addMessage | apply IH].
Qed.

Lemma send_subscribe_appends scope kind tokens : ∀ s,
  is_open s = true → appends s (fold_left (send_subscribe scope kind) tokens s).
Proof.
  induction tokens as [| tok rest IH]; intros s Hopen; simpl; [apply appends_refl |].
  assert (Hone : appends s (send_subscribe scope kind s tok)).
  { unfold send_subscribe.
    eapply appends_trans; [by apply appends_transmit | apply appends_addMessage]. }
  eapply appends_trans; [exact Hone |]. apply IH.
  by rewrite (appends_is_open _ _ Hone).
Qed.

Lemma sendLogin_appends scope s : appends s (sendLogin scope s).
Proof.
  unfold sendLogin. destruct (is_open s) eqn:Hopen; simpl;
    [| apply appends_addMessage].
  eapply appends_trans; [by apply appends_transmit | apply appends_addMessage].
Qed.

Lemma onmessage_appends scope data parsed s :
  appends s (outcome_state (onmessage scope data parsed s)).
Proof.
  destruct parsed as [p |]; [| by apply appends_same].
  assert (Hcases : p = JNull ∨ p ≠ JNull) by (destruct p; (by left) || (by right)).
  destruct Hcases as [-> | Hp]; [by apply appends_same |].
  rewrite (onmessage_parsed _ _ _ _ Hp). cbv zeta.
  set (s1 := addMessage msg_received (Pretty p) s).
  assert (Hlogged : ∀ c,
    c = (if is_login_response p then
           resubscribe scope (pendingSubscriptionsRef s1)
             (addMessage msg_success
                (Text "Login successful – auto-resubscribing tokens...")
                (setIsLoggedIn true s1))
         else Normal s1) →
    appends s (completion_state c)).
  { intros c ->. destruct (is_login_response p); [| by apply appends_same].
    eapply appends_trans; [| apply resubscribe_appends]. by apply appends_same. }
  specialize (Hlogged _ eq_refl).
  destruct (if is_login_response p then _ else _) as [s2 | s2]; simpl in Hlogged.
  - eapply appends_trans; [exact Hlogged |]. apply appends_same.
    + apply store_market_data_sockets.
    + unfold store_market_data.
      destruct (market_info p) as [[marketInfo [symbol |]] |]; simpl; try done.
      destruct (truthy symbol); [destruct (to_property_key symbol) |]; done.
  - simpl. eapply appends_trans; [exact Hlogged | apply appends_addMessage].
Qed.

Lemma sent_on_alter f id j s :
  (∀ k, outbox (f k) = outbox k) →
  sent_on j (set_sockets (alter f id (sockets s)) s) = sent_on j s.
Proof.
  intros Hf. unfold sent_on. simpl.
  destruct (decide (j = id)) as [-> | Hj].
  - rewrite list_lookup_alter_eq. destruct (sockets s !! id); simpl; [apply Hf | done].
  - by rewrite list_lookup_alter_ne.
Qed.

(** What each handler has sent when it ends, socket by socket. *)
Lemma handle_sent e s j :
  ∃ new, sent_on j (outcome_state (handle e s)) = (sent_on j s ++ new)%list
         ∧ (new ≠ [] → wsRef s = Some j ∧ socket_state j s = Some OPEN).
Proof.
  assert (Hfrom : ∀ mid, appends s mid →
    ∃ new, sent_on j mid = (sent_on j s ++ new)%list
           ∧ (new ≠ [] → wsRef s = Some j ∧ socket_state j s = Some OPEN)).
  { intros mid [_ Hall]. apply (Hall j). }
  assert (Hnone : ∀ mid, sent_on j mid = sent_on j s →
    ∃ new, sent_on j mid = (sent_on j s ++ new)%list
           ∧ (new ≠ [] → wsRef s = Some j ∧ socket_state j s = Some OPEN)).
  { intros mid ->. exists []. by rewrite app_nil_r. }
  destruct e; cbn [handle outcome_state].
  - apply Hnone. destruct thrown; [done |]. unfold sent_on. simpl.
    destruct (sockets s !! j) as [k |] eqn:Hk.
    + by rewrite (lookup_app_l_Some _ _ _ _ Hk).
    + apply lookup_ge_None in Hk.
      destruct (decide (j = length (sockets s))) as [-> | Hj].
      * by rewrite list_lookup_middle.
      * rewrite lookup_ge_None_2; [done |]. rewrite length_app. simpl. lia.
  - apply Hnone. unfold disconnectWebSocket.
    destruct (wsRef s) as [i |]; [| done].
    apply (sent_on_alter close_socket i j s).
    intros k. unfold close_socket. by destruct (readyState k).
  - apply Hfrom, sendLogin_appends.
  - apply Hfrom. unfold sendLogout. destruct (is_open s) eqn:Hopen;
      [| apply appends_refl].
    eapply appends_trans; [by apply appends_transmit | by apply appends_same].
  - apply Hfrom. unfold subscribeToken.
    destruct (is_open s) eqn:Hopen; simpl; [| apply appends_addMessage].
    destruct (isLoggedIn s); simpl; [| apply appends_addMessage].
    eapply appends_trans; [by apply send_subscribe_appends | by apply appends_same].
  - destruct (subscribedTokens s !! i) as [item |]; cbn [outcome_state];
      [| by apply Hnone].
    apply Hfrom. unfold unsubscribeToken. destruct (is_open s) eqn:Hopen;
      [| apply appends_refl].
    eapply appends_trans; [by apply appends_transmit | by apply appends_same].
  - by apply Hnone.
  - by apply Hnone.
  - by apply Hnone.
  - by apply Hnone.
  - apply Hnone. unfold onopen.
    case_match; apply (sent_on_alter (set_readyState OPEN) id j s); done.
  - apply Hfrom, onmessage_appends.
  - by apply Hnone.
  - apply Hnone. apply (sent_on_alter (set_readyState CLOSED) id j s). done.
  - destruct (timers s) as [| closure rest]; cbn [outcome_state]; [by apply Hnone |].
    apply Hfrom. eapply appends_trans; [| apply sendLogin_appends].
    by apply appends_same.
Qed.

(** X14.  Across one event nothing a socket has sent is taken back, and new
    frames appear only on the socket behind the handle, and only when that
    socket is open: no event sends on a socket that is connecting, closing or
    closed, or on a socket the handle has left behind. *)
Theorem X14_frames_only_on_open_handle e s s' j :
  step e s = Some s' →
  ∃ new, sent_on j s' = (sent_on j s ++ new)%list
         ∧ (new ≠ [] → wsRef s = Some j ∧ socket_state j s = Some OPEN).
Proof.
  intros (_ & mid & Hmid & ->)%step_outcome.
  pose proof (handle_sent e s j) as Hsent. rewrite Hmid in Hsent. simpl in Hsent.
  unfold sent_on in *. by rewrite effects_sockets.
Qed.

(** ** Opening, the replay list, and the confirmation frame *)

(** X19.  From the mounted component on, when a transport opens the status
    becomes connected and nothing is sent; the delayed login is scheduled
    exactly when the registry is not empty or the session is logged in
    already (through another socket), so a session with nothing restored
    waits for the operator to press Login. *)
Theorem X19_open_schedules_login creds tokens thrown store s id s' :
  reachable (mount creds tokens thrown store) s →
  step (WsOpen id) s = Some s' →
  wsStatus s' = connected
  ∧ timers s' =
      (timers s ++ (if negb (bool_decide (subscribedTokens s = [])) || isLoggedIn s
                    then [socket_scope id s] else []))%list
  ∧ (∀ j, sent_on j s' = sent_on j s)
  ∧ isLoggedIn s' = isLoggedIn s.
Proof.
  intros Hreach (_ & mid & [= <-] & ->)%step_outcome.
  pose proof (reachable_in_sync _ _ _ _ _ Hreach) as Hsync.
  destruct (reachable_store_mirrors _ _ _ _ _ Hreach) as (_ & _ & Hflag).
  unfold in_sync in Hsync.
  rewrite effects_wsStatus, effects_timers, effects_isLoggedIn.
  assert (Hcond :
    (0 <? length (pendingSubscriptionsRef s))%nat
    || bool_decide (localStorage s !! STORAGE_KEYS.wasLoggedIn = Some "true")
    = negb (bool_decide (subscribedTokens s = [])) || isLoggedIn s).
  { rewrite Hsync. f_equal.
    - by destruct (subscribedTokens s).
    - destruct (isLoggedIn s).
      + apply bool_decide_eq_true. by apply Hflag.
      + apply bool_decide_eq_false. intros Htrue. by apply Hflag in Htrue. }
  unfold onopen, getItem. cbn [pendingSubscriptionsRef localStorage addMessage
    setMessages set_wsStatus set_sockets]. rewrite Hcond.
  split_and!.
  - by case_match.
  - case_match; simpl; [done | by rewrite app_nil_r].
  - intros j. unfold sent_on. rewrite effects_sockets.
    assert (Hsockets : ∀ t, sockets (if negb (bool_decide (subscribedTokens s = []))
                                         || isLoggedIn s
              then set_timers t
                (addMessage msg_success (Text "WebSocket connected")
                   (set_wsStatus connected
                      (set_sockets (alter (set_readyState OPEN) id (sockets s)) s)))
              else addMessage msg_success (Text "WebSocket connected")
                (set_wsStatus connected
                   (set_sockets (alter (set_readyState OPEN) id (sockets s)) s)))
            = alter (set_readyState OPEN) id (sockets s)) by (intros t; by case_match).
    rewrite Hsockets.
    destruct (decide (j = id)) as [-> | Hj].
    + rewrite list_lookup_alter_eq. by destruct (sockets s !! id).
    + by rewrite list_lookup_alter_ne.
  - by case_match.
Qed.

(** X20.  From the mounted component on, the list replayed after a login
    confirmation is always the registry the operator sees. *)
Theorem X20_replay_list_is_registry creds tokens thrown store s :
  reachable (mount creds tokens thrown store) s →
  pendingSubscriptionsRef s = subscribedTokens s.
Proof. apply reachable_in_sync. Qed.

(** X21.  A frame is taken for a login confirmation exactly when it is an
    object whose [response] member is an object with the string "Broadcast"
    as [svcName] and the string "login" as [streamingType]; whatever else the
    frame carries is not looked at. *)
Theorem X21_login_confirmation_shape p :
  is_login_response p = true ↔
  ∃ o r, p = JObj o ∧ o !! "response" = Some (JObj r)
         ∧ r !! "svcName" = Some (JStr "Broadcast")
         ∧ r !! "streamingType" = Some (JStr "login").
Proof.
  unfold is_login_response. split.
  - intros [Hsvc Htype]%andb_true_iff.
    destruct p as [| | | | | o]; try done. simpl in *.
    destruct (o !! "response") as [[| | | | | r] |] eqn:Hresponse; try done.
    simpl in *. exists o, r. split; [done |]. split; [done |].
    destruct (r !! "svcName") as [[| | | name | |] |]; try done.
    destruct (r !! "streamingType") as [[| | | kind | |] |]; try done.
    simpl in *. apply String.eqb_eq in Hsvc as ->. by apply String.eqb_eq in Htype as ->.
  - intros (o & r & -> & Hresponse & Hsvc & Htype).
    simpl. rewrite Hresponse. simpl. rewrite Hsvc, Htype. reflexivity.
Qed.

End ClientFacts.

(** * The properties on the sample sessions *)

#[local] Existing Instance host.

(** C1, at the second tick of the scenario: the record stored for
    NSECM:2885 is the one normalised from that tick, with its [ltp], without
    the [p_change] of the first tick and with a [null] change. *)
Lemma C1_frame_replaces_record_witness :
  ∃ s', onmessage (credentials watching_session) "tick"
          (Some (data_frame tick2_data)) watching_session = Rendered s'
    ∧ marketData s' !! "NSECM:2885" = Some (normalize (JStr "NSECM:2885") tick2_data)
    ∧ normalize (JStr "NSECM:2885") tick2_data !! "ltp" = Some (JNum 102)
    ∧ normalize (JStr "NSECM:2885") tick2_data !! "p_change" = None
    ∧ normalize (JStr "NSECM:2885") tick2_data !! "change" = Some JNull.
Proof.
  destruct (C1_frame_replaces_record (credentials watching_session) "tick"
              (data_frame tick2_data) tick2_data (JStr "NSECM:2885") "NSECM:2885"
              watching_session)
    as (s' & Hrun & Hstored & _ & Hpresent & Habsent & Hnull).
  - vm_compute; reflexivity.
  - reflexivity.
  - reflexivity.
  - left. vm_compute; reflexivity.
  - exists s'. split; [exact Hrun |]. split; [exact Hstored |].
    split; [apply Hpresent; vm_compute; reflexivity |].
    split.
    + apply Habsent; [vm_compute; reflexivity |].
      rewrite list_elem_of_In. simpl. intros Hin.
      repeat (destruct Hin as [Hin | Hin]; [discriminate Hin |]). exact Hin.
    + apply Hnull; [| vm_compute; reflexivity].
      apply list_elem_of_In. simpl. tauto.
Defined.

(** C1, refuted as stated.  The first tick stores a percent change of 1.2
    for NSECM:2885; the second tick carries neither [p_change] nor
    [changePercent]; after it the stored percent change is [null] and the
    [p_change] member is gone: the first tick's values are not retained. *)
Lemma C1_second_frame_drops_fields :
  let tick1 := WsMessage 0 "tick1" (Some (data_frame tick1_data)) in
  let tick2 := WsMessage 0 "tick2" (Some (data_frame tick2_data)) in
  let stored (field : string) (s : State) :=
    marketData s !! "NSECM:2885" ≫= (.!! field) in
  stored "changePercent" <$> run [tick1] live_session = Some (Some (JNum 1.2))
  ∧ stored "p_change" <$> run [tick1] live_session = Some (Some (JNum 1.2))
  ∧ get tick2_data "changePercent" = None
  ∧ get tick2_data "p_change" = None
  ∧ stored "changePercent" <$> run [tick1; tick2] live_session = Some (Some JNull)
  ∧ stored "p_change" <$> run [tick1; tick2] live_session = Some None
  ∧ stored "ltp" <$> run [tick1; tick2] live_session = Some (Some (JNum 102)).
Proof. vm_compute. repeat split. Qed.

(** C2, at a transport close in the logged-in session: [isLoggedIn] is
    false afterwards. *)
Lemma C2_auth_status_transitions_witness :
  isLoggedIn live_session = true
  ∧ isLoggedIn (default live_session (step (WsClose 0) live_session)) = false.
Proof.
  split; [vm_compute; reflexivity |].
  destruct (C2_auth_status_transitions (WsClose 0) live_session
              (default live_session (step (WsClose 0) live_session)))
    as (_ & _ & Hfalse & _); [vm_compute; reflexivity |].
  apply Hfalse. right. left. by exists 0.
Defined.

(** C2, refuted as stated.  In the logged-in session a transport error can
    occur, and after it [isLoggedIn] is still true (only the status has
    changed). *)
Lemma C2_error_keeps_logged_in :
  isLoggedIn live_session = true
  ∧ enabled (WsError 0) live_session = true
  ∧ isLoggedIn <$> step (WsError 0) live_session = Some true
  ∧ wsStatus <$> step (WsError 0) live_session = Some error.
Proof. vm_compute. repeat split. Qed.

(** The replay at the login confirmation that reaches the component mounted
    over the saved store, on the transport behind the handle: after the
    login request, the socket has sent one subscribe request per saved
    subscription, each with its own kind. *)
Lemma replay_on_open_handle_witness :
  let creds := credentials (initial ∅) in
  length (subscribedTokens resumed_session) = 2
  ∧ sent_on 0 (outcome_state
                 (onmessage creds "login" (Some login_confirmation) resumed_session))
    = [session_request creds subscribe login;
       symbol_request creds subscribe "NSECM:2885" ltpinfo;
       symbol_request creds subscribe "NSECM:1234" marketPicture].
Proof.
  split; [vm_compute; reflexivity |].
  edestruct (replay_on_open_handle (Some (credentials (initial ∅)))
               (Some saved_tokens) None saved_store resumed_session
               (credentials (initial ∅)) "login" login_confirmation 0) as (Hsent & _).
  - apply (run_reachable resumed_trace _ _ _ (reachable_start _)).
    vm_compute; reflexivity.
  - vm_compute; reflexivity.
  - vm_compute; reflexivity.
  - reflexivity.
  - vm_compute; reflexivity.
  - rewrite Hsent. vm_compute; reflexivity.
Defined.

(** C3, evaluated.  Over the saved store the registry holds two entries.
    After [stale_handle_trace] the login request has been sent on socket 1,
    which is open, and the handle points at socket 2, which is connecting.
    The server's confirmation then arrives on socket 1: the handler sets
    [isLoggedIn], announces the replay in the log and calls [send] on the
    handle; the first call throws, the [catch] logs the raw frame, and no
    subscribe request has been sent on any socket, where one per registry
    entry was due.  When socket 2 has failed before the confirmation
    arrives, the two calls return, each is logged as an auto-subscribe, and
    again nothing has been sent.  The same confirmation reaching
    [resumed_session], whose handle is the open socket, is followed by the
    two requests. *)
Lemma C3_replay_lost_on_connecting_handle :
  let creds := credentials (initial ∅) in
  let confirmation := WsMessage 1 "login" (Some login_confirmation) in
  let before := run stale_handle_trace resumed_mount in
  let after := run (stale_handle_trace ++ [confirmation]) resumed_mount in
  let dropped := run (stale_handle_trace ++ [WsClose 2; confirmation]) resumed_mount in
  let last_logged (s : State) := content <$> last (messages s) in
  subscribedTokens <$> before = Some saved_tokens
  ∧ isLoggedIn <$> before = Some false
  ∧ enabled confirmation <$> before = Some true
  ∧ sent_on 1 <$> before = Some [session_request creds subscribe login]
  ∧ wsRef <$> before = Some (Some 2)
  ∧ socket_state 2 <$> before = Some (Some CONNECTING)
  ∧ isLoggedIn <$> after = Some true
  ∧ subscribedTokens <$> after = Some saved_tokens
  ∧ sent_on 0 <$> after = Some []
  ∧ sent_on 1 <$> after = Some [session_request creds subscribe login]
  ∧ sent_on 2 <$> after = Some []
  ∧ last_logged <$> after = Some (Some (Text "login"))
  ∧ isLoggedIn <$> dropped = Some true
  ∧ subscribedTokens <$> dropped = Some saved_tokens
  ∧ sent_on 0 <$> dropped = Some []
  ∧ sent_on 1 <$> dropped = Some [session_request creds subscribe login]
  ∧ sent_on 2 <$> dropped = Some []
  ∧ last_logged <$> dropped
    = Some (Some (Text "Auto-subscribe: NSECM:1234 (marketPicture)"))
  ∧ sent_on 0 <$> run [WsMessage 0 "login" (Some login_confirmation)] resumed_session
    = Some [session_request creds subscribe login;
            symbol_request creds subscribe "NSECM:2885" ltpinfo;
            symbol_request creds subscribe "NSECM:1234" marketPicture].
Proof. vm_compute. repeat split. Qed.

(** C4, evaluated.  In the session that is logged in and watching a token,
    the body of [disconnectWebSocket] removes both keys from the store, and
    the effects of the render that follows write both again: after the
    Disconnect click the store holds the empty list under the subscriptions
    key and "false" under the login-flag key. *)
Lemma C4_disconnect_keys_written_again :
  let stored (k : string) (s : State) := localStorage s !! k in
  stored STORAGE_KEYS.subscriptions (disconnectWebSocket watching_session) = None
  ∧ stored STORAGE_KEYS.wasLoggedIn (disconnectWebSocket watching_session) = None
  ∧ enabled ClickDisconnect watching_session = true
  ∧ stored STORAGE_KEYS.subscriptions <$> step ClickDisconnect watching_session
    = Some (Some "[]")
  ∧ stored STORAGE_KEYS.wasLoggedIn <$> step ClickDisconnect watching_session
    = Some (Some "false")
  ∧ isLoggedIn <$> step ClickDisconnect watching_session = Some false
  ∧ subscribedTokens <$> step ClickDisconnect watching_session = Some []
  ∧ size ∘ marketData <$> step ClickDisconnect watching_session = Some 0.
Proof. vm_compute. repeat split. Qed.

(** C5, at the first render: not logged in and no transport. *)
Lemma C5_subscribe_rejected_witness :
  subscribeToken (initial ∅) =
    addMessage msg_error (Text "Please login first") (initial ∅)
  ∧ sockets (subscribeToken (initial ∅)) = []
  ∧ subscribedTokens (subscribeToken (initial ∅)) = [].
Proof.
  destruct (C5_subscribe_rejected (initial ∅)) as (Hreject & Hsockets & Hregistry & _);
    [left; reflexivity |].
  split; [exact Hreject |]. split; [exact Hsockets | exact Hregistry].
Defined.

(** C6, evaluated.  Logged in and connected, with an empty registry, the
    operator subscribes with the input "NSECM:2885,NSECM:2885": two frames
    are sent and the registry ends with the same (token, kind) pair twice. *)
Lemma C6_duplicate_within_one_input :
  let entry := {| token := "NSECM:2885"; type := ltpinfo |} in
  subscribedTokens live_session = []
  ∧ subscribedTokens <$>
      run [ChangeNewToken "NSECM:2885,NSECM:2885"; ClickSubscribe] live_session
    = Some [entry; entry]
  ∧ subscribedTokens <$>
      run [ChangeNewToken "NSECM:2885"; ClickSubscribe;
           ChangeNewToken "NSECM:2885"; ClickSubscribe] live_session
    = Some [entry].
Proof. vm_compute. repeat split. Qed.

(** C7, evaluated.  A frame that carries [p_change] 1.25 and [changePercent]
    2.5, [tot_vol] 700 and [volume] 900 is stored with percent change 2.5 and
    volume 900: the second alias, not the first. *)
Lemma C7_second_alias_wins :
  let frame := WsMessage 0 "tick" (Some (data_frame both_aliases_data)) in
  let stored (field : string) (s : State) :=
    marketData s !! "NSECM:2885" ≫= (.!! field) in
  get both_aliases_data "p_change" = Some (JNum 1.25)
  ∧ get both_aliases_data "tot_vol" = Some (JNum 700)
  ∧ stored "changePercent" <$> step frame live_session = Some (Some (JNum 2.5))
  ∧ stored "volume" <$> step frame live_session = Some (Some (JNum 900)).
Proof. vm_compute. repeat split. Qed.

(** C8, refuted as stated.  In [relogged_session] the status is connected
    and [isLoggedIn] is true; the delayed login of the second connection is
    still due, and when it fires, [sendLogin] sends one more login request
    on the open transport. *)
Lemma C8_login_sent_while_logged_in :
  let creds := credentials (initial ∅) in
  wsStatus relogged_session = connected
  ∧ isLoggedIn relogged_session = true
  ∧ enabled Timeout relogged_session = true
  ∧ sent_on 1 <$> step Timeout relogged_session
    = Some (sent_on 1 relogged_session ++ [session_request creds subscribe login])%list
  ∧ sent_on 1 (sendLogin creds live_session) = sent_on 1 live_session
  ∧ sent_on 0 (sendLogin creds live_session)
    = (sent_on 0 live_session ++ [session_request creds subscribe login])%list.
Proof. vm_compute. repeat split. Qed.

(** C9, refuted as stated.  Pressed twice before the transport opens, the
    Connect button opens two sockets, both connecting; and called in the
    connected, logged-in session, [connectWebSocket] opens a second socket
    next to the open one and moves the handle to it. *)
Lemma C9_second_transport_opened :
  List.map readyState ∘ sockets
    <$> run [ClickConnect None; ClickConnect None] (initial ∅)
    = Some [CONNECTING; CONNECTING]
  ∧ wsRef <$> run [ClickConnect None; ClickConnect None] (initial ∅) = Some (Some 1)
  ∧ wsStatus live_session = connected
  ∧ List.map readyState (sockets live_session) = [OPEN]
  ∧ List.map readyState
      (sockets (connectWebSocket (credentials live_session) None live_session))
    = [OPEN; CONNECTING]
  ∧ wsRef (connectWebSocket (credentials live_session) None live_session) = Some 1.
Proof. vm_compute. repeat split. Qed.

(** C10, in the session that watches NSECM:2885 under both kinds:
    unsubscribing the [ltpinfo] entry keeps the [marketPicture] entry and
    deletes the record they share. *)
Lemma C10_unsubscribe_deletes_record_by_token_witness :
  let s' := unsubscribeToken "NSECM:2885" ltpinfo watching_session in
  marketData watching_session !! "NSECM:2885" ≫= (.!! "ltp") = Some (JNum 101.5)
  ∧ {| token := "NSECM:2885"; type := marketPicture |} ∈ subscribedTokens s'
  ∧ marketData s' !! "NSECM:2885" = None.
Proof.
  split; [vm_compute; reflexivity |].
  destruct (C10_unsubscribe_deletes_record_by_token "NSECM:2885" ltpinfo
              watching_session) as (_ & _ & _ & Hother); [vm_compute; reflexivity |].
  apply (Hother marketPicture); [done |].
  vm_compute. apply list_elem_of_In. right. by left.
Defined.

(** X1, at a Logout click in the session that is logged in and watching a
    token. *)
Lemma X1_logout_resets_session_witness :
  let s' := default watching_session (step ClickLogout watching_session) in
  isLoggedIn watching_session = true ∧ isLoggedIn s' = false
  ∧ subscribedTokens s' = []
  ∧ sent_on 0 s'
    = (sent_on 0 watching_session
         ++ [session_request (credentials watching_session) unsubscribe logout])%list
  ∧ localStorage s' !! STORAGE_KEYS.subscriptions = Some "[]"
  ∧ localStorage s' !! STORAGE_KEYS.wasLoggedIn = Some "false".
Proof.
  cbv zeta.
  destruct (X1_logout_resets_session watching_session) as (_ & Hopen & _);
    [vm_compute; reflexivity |].
  destruct Hopen as (n & k & s' & Href & Hk & -> & Hsent & _ & _ & Hout & Hregistry
                     & _ & _ & _ & _ & Hsubs & Hflag & _); [vm_compute; reflexivity |].
  assert (n = 0) as -> by (vm_compute in Href; congruence).
  cbn [default from_option id]. split; [vm_compute; reflexivity |].
  split; [exact Hout |]. split; [exact Hregistry |].
  split; [| split; [exact Hsubs | exact Hflag]].
  unfold sent_on. rewrite Hsent, Hk. reflexivity.
Defined.

(** X2, at the close of the transport of the watching session: the session
    is disconnected and logged out, the two subscriptions and the record stay. *)
Lemma X2_close_keeps_subscriptions_witness :
  let s' := default watching_session (step (WsClose 0) watching_session) in
  wsStatus s' = disconnected ∧ isLoggedIn s' = false
  ∧ subscribedTokens s' = subscribedTokens watching_session
  ∧ marketData s' = marketData watching_session.
Proof.
  cbv zeta.
  destruct (X2_close_keeps_subscriptions 0 watching_session
              (default watching_session (step (WsClose 0) watching_session)))
    as (Hstatus & Hlogged & Hregistry & _ & Hmarket & _); [vm_compute; reflexivity |].
  split_and!; assumption.
Defined.

(** X3, at a frame that does not parse. *)
Lemma X3_other_frames_only_logged_witness :
  ∃ s', onmessage (credentials live_session) "not json" None live_session = Rendered s'
    ∧ same_core live_session s' ∧ sockets s' = sockets live_session
    ∧ messages s'
      = (messages live_session
           ++ [{| msg_type := msg_received; content := Text "not json" |}])%list.
Proof.
  apply (X3_other_frames_only_logged (credentials live_session) "not json" None
           live_session).
  by left.
Defined.

(** X4, at a login confirmation with a top-level symbol and a
    [response.data] that has none, reaching the session that watches
    nothing yet. *)
Lemma X4_nested_data_shadows_flat_symbol_witness :
  truthy_opt (get shadowed_confirmation "symbol") = true
  ∧ is_login_response shadowed_confirmation = true
  ∧ carries_symbol shadowed_confirmation = false
  ∧ ∃ s', onmessage (credentials live_session) "login" (Some shadowed_confirmation)
            live_session = Rendered s'
          ∧ marketData s' = marketData live_session.
Proof.
  split; [vm_compute; reflexivity |].
  split; [vm_compute; reflexivity |].
  apply (X4_nested_data_shadows_flat_symbol (credentials live_session) "login"
           shadowed_confirmation (obj [("ltp", JNum 101.5)]) live_session);
    vm_compute; reflexivity.
Defined.

(** X6, at the first token of a padded input. *)
Lemma X6_parsed_tokens_clean_witness :
  parse_tokens " NSECM:2885 , NSECM:1234,, " = ["NSECM:2885"; "NSECM:1234"]
  ∧ "NSECM:2885" ≠ EmptyString ∧ trim "NSECM:2885" = "NSECM:2885"
  ∧ occurs "," "NSECM:2885" = false.
Proof.
  split; [vm_compute; reflexivity |].
  apply (X6_parsed_tokens_clean " NSECM:2885 , NSECM:1234,, " "NSECM:2885").
  apply list_elem_of_In. vm_compute. by left.
Defined.

(** X7, at a subscribe to two tokens in the logged-in session. *)
Lemma X7_subscribe_registers_every_token_witness :
  let s := setNewToken "NSECM:2885, NSECM:1234" live_session in
  {| token := "NSECM:1234"; type := ltpinfo |} ∈ subscribedTokens (subscribeToken s)
  ∧ pendingSubscriptionsRef (subscribeToken s) = subscribedTokens (subscribeToken s)
  ∧ newToken (subscribeToken s) = EmptyString.
Proof.
  cbv zeta.
  edestruct (X7_subscribe_registers_every_token
               (setNewToken "NSECM:2885, NSECM:1234" live_session) 0)
    as (_ & _ & Hregistry & Hreplay & Hinput).
  - vm_compute; reflexivity.
  - vm_compute; reflexivity.
  - reflexivity.
  - vm_compute; reflexivity.
  - split; [| split; [exact Hreplay | exact Hinput]].
    apply Hregistry. right. split; [| reflexivity].
    apply list_elem_of_In. vm_compute. right. by left.
Defined.

(** X9, at an input of commas and blanks, for which the Subscribe button is
    enabled. *)
Lemma X9_subscribe_without_tokens_witness :
  let s := setNewToken " , ," live_session in
  enabled ClickSubscribe s = true
  ∧ sockets (subscribeToken s) = sockets s
  ∧ subscribedTokens (subscribeToken s) = subscribedTokens s
  ∧ newToken (subscribeToken s) = EmptyString.
Proof.
  cbv zeta. split; [vm_compute; reflexivity |].
  destruct (X9_subscribe_without_tokens (setNewToken " , ," live_session))
    as (Hsockets & _ & Hregistry & _ & _ & Hinput); try (vm_compute; reflexivity).
  split_and!; assumption.
Defined.

(** X11, in the session resumed from the saved store. *)
Lemma X11_store_mirrors_state_witness : store_mirrors resumed_watching.
Proof.
  apply (X11_store_mirrors_state (Some (credentials (initial ∅))) (Some saved_tokens)
           None saved_store).
  apply (run_reachable resumed_watching_trace _ _ _ (reachable_start _)).
  vm_compute; reflexivity.
Defined.

(** X13, for the record the resumed session stored for NSECM:2885. *)
Lemma X13_stored_records_well_formed_witness :
  ∃ record, marketData resumed_watching !! "NSECM:2885" = Some record
            ∧ record_ok "NSECM:2885" record.
Proof.
  eexists. split; [reflexivity |].
  apply (X13_stored_records_well_formed (Some (credentials (initial ∅)))
           (Some saved_tokens) None saved_store resumed_watching).
  - apply (run_reachable resumed_watching_trace _ _ _ (reachable_start _)).
    vm_compute; reflexivity.
  - reflexivity.
Defined.

(** X14, at the delayed login that fires in the re-logged session: the new
    frame is on socket 1, which is open and behind the handle. *)
Lemma X14_frames_only_on_open_handle_witness :
  let s' := default relogged_session (step Timeout relogged_session) in
  ∃ new, sent_on 1 s' = (sent_on 1 relogged_session ++ new)%list
         ∧ (new ≠ [] → wsRef relogged_session = Some 1
                       ∧ socket_state 1 relogged_session = Some OPEN).
Proof.
  cbv zeta.
  apply (X14_frames_only_on_open_handle Timeout relogged_session).
  vm_compute; reflexivity.
Defined.

(** X15, at a subscribe to two different tokens. *)
Lemma X15_registry_stays_duplicate_free_witness :
  let s := setNewToken "NSECM:2885,NSECM:1234" live_session in
  NoDup (subscribedTokens (default s (step ClickSubscribe s))).
Proof.
  cbv zeta.
  apply (X15_registry_stays_duplicate_free ClickSubscribe
           (setNewToken "NSECM:2885,NSECM:1234" live_session)).
  - vm_compute; reflexivity.
  - vm_compute. constructor.
  - intros _. vm_compute. apply (bool_decide_unpack _). vm_compute. exact I.
Defined.

(** X17, in the watching session, reached from the first render. *)
Lemma X17_registry_entries_well_formed_witness : registry_ok watching_session.
Proof.
  apply (X17_registry_entries_well_formed (initial ∅)).
  - apply (run_reachable (login_trace ++ watching_trace) _ _ _ (reachable_start _)).
    vm_compute; reflexivity.
  - split; [by left |]. intros i Hin. by apply elem_of_nil in Hin.
Defined.

(** X18, with restored credentials that differ from the defaults: they are
    in the form after mount, and the login that is sent carries the
    defaults. *)
Lemma X18_auto_login_uses_first_render_credentials_witness :
  let m := mount (Some restored_credentials) (Some saved_tokens) None restored_store in
  credentials m = restored_credentials
  ∧ sent_on 0 (default m (run [WsOpen 0; Timeout] m))
    = [session_request
         {| gscid := "KS02"; gcid := "218"; sessionId := "dummy-session";
            deviceId := "dummy-device" |} subscribe login].
Proof.
  cbv zeta. split; [vm_compute; reflexivity |].
  apply (X18_auto_login_uses_first_render_credentials (Some restored_credentials)
           (Some saved_tokens) restored_store).
  vm_compute; reflexivity.
Defined.

(** X19, when the second transport of the resumed session opens: two
    subscriptions are registered, so the delayed login is scheduled. *)
Lemma X19_open_schedules_login_witness :
  let s' := default reconnecting_session (step (WsOpen 1) reconnecting_session) in
  wsStatus s' = connected
  ∧ timers s' = (timers reconnecting_session ++ [credentials (initial ∅)])%list.
Proof.
  cbv zeta.
  destruct (X19_open_schedules_login (Some (credentials (initial ∅)))
              (Some saved_tokens) None saved_store reconnecting_session 1
              (default reconnecting_session (step (WsOpen 1) reconnecting_session)))
    as (Hstatus & Htimers & _).
  - apply (run_reachable reconnect_trace _ _ _ (reachable_start _)).
    vm_compute; reflexivity.
  - vm_compute; reflexivity.
  - split; [exact Hstatus |]. rewrite Htimers. vm_compute; reflexivity.
Defined.

(** X20, in the session resumed from the saved store. *)
Lemma X20_replay_list_is_registry_witness :
  pendingSubscriptionsRef resumed_watching = subscribedTokens resumed_watching.
Proof.
  apply (X20_replay_list_is_registry (Some (credentials (initial ∅)))
           (Some saved_tokens) None saved_store).
  apply (run_reachable resumed_watching_trace _ _ _ (reachable_start _)).
  vm_compute; reflexivity.
Defined.
